(** * storageService: the client-side cache and synchronisation layer

    A shallow embedding of [src/services/storageService.ts].

    - The module-level [CACHE] object, [localStorage] and the wall clock
      ([Date.now()]) form the [World].
    - An [async] function is a resumption: it runs synchronously up to its
      next [await] on the Supabase gateway, where it suspends with the world
      as it stands; it is resumed with the gateway's response and with the
      world as it stands then (other calls may have run in between, and the
      clock has moved).
    - What the file imports but does not define (the mock constants of
      [../constants], two opaque types of [../types], and the JavaScript
      runtime's locale and URI functions) is collected in [Platform]. *)

From Stdlib Require Import ZArith QArith List String Ascii Bool Lia.
From Stdlib Require Import DecimalString Sorting.Sorted Sorting.Permutation.
From Stdlib Require Import OrderedTypeEx.
Import ListNotations.
Local Open Scope string_scope.
Local Open Scope list_scope.
Local Open Scope Z_scope.

Set Implicit Arguments.

(** ** JavaScript values *)

(** [x || d] on a string that may be [null]/[undefined]: the empty string is
    falsy as well. *)
Definition str_or (x : option string) (d : string) : string :=
  match x with
  | Some s => if (s =? "")%string then d else s
  | None => d
  end.

(** [x || 0] on a number. *)
Definition Z_or (x : option Z) (d : Z) : Z :=
  match x with
  | Some n => if (n =? 0)%Z then d else n
  | None => d
  end.

Definition Q_or (x : option Q) (d : Q) : Q :=
  match x with
  | Some q => if Qeq_bool q 0 then d else q
  | None => d
  end.

(** [x || []] on an array: every array is truthy. *)
Definition list_or {A} (x : option (list A)) : list A :=
  match x with
  | Some l => l
  | None => []
  end.

(** Truthiness of an optional string argument ([!beforeTimestamp]). *)
Definition truthy_str (x : option string) : bool :=
  match x with
  | Some s => negb (s =? "")%string
  | None => false
  end.

(** Template-literal rendering of an integral number. *)
Definition Z_to_string (z : Z) : string :=
  NilZero.string_of_int (Z.to_int z).

(** [a.slice(start)] for an integral [start]: a negative start counts from
    the end, and both ends are clamped. *)
Definition slice_from {A} (start : Z) (a : list A) : list A :=
  let len := Z.of_nat (List.length a) in
  let k := if start <? 0 then Z.max (len + start) 0 else Z.min start len in
  skipn (Z.to_nat k) a.

(** What [throw] carries. *)
Inductive Exn : Type :=
| GatewayError (message : string)   (* the [error] object of a response *)
| Error (message : string)          (* [new Error(message)] *)
| TypeError.                        (* property access on [null] *)

Definition message (e : Exn) : string :=
  match e with
  | GatewayError m => m
  | Error m => m
  | TypeError => "TypeError"
  end.

(** ** Domain records ([../types], as the service builds them) *)

Module Location.
Record t : Type := mk
  { lat : Q; lng : Q; address : string; city : string }.
End Location.

Module Member.
Record t : Type := mk
  { id : string;
    name : string;
    email : option string;
    businessName : string;
    sector : string;
    location : Location.t;
    avatar : string;
    joinedDate : string;
    status : string;
    trainingProgress : Z;
    badges : list string;
    role : string;
    completedTrainings : list string }.
End Member.

Module Comment.
Record t : Type := mk
  { id : string; authorName : string; content : string; timestamp : string }.
End Comment.

Module Post.
Record t : Type := mk
  { id : string;
    authorId : option string;
    content : string;
    type : string;
    likes : Z;
    comments : option Z;
    timestamp : string;
    image : option string;
    likedBy : list string;
    commentsList : list Comment.t;
    authorName : string;
    authorAvatar : string }.
End Post.

Module TrainingResource.
Record t : Type := mk
  { id : string;
    title : string;
    description : string;
    type : string;
    url : string;
    duration : option string;
    dateAdded : string;
    authorName : option string }.
End TrainingResource.

Module DiscussionMessage.
Record t : Type := mk
  { id : string;
    authorId : option string;
    authorName : string;
    authorAvatar : string;
    content : string;
    timestamp : string;
    displayTime : string }.
End DiscussionMessage.

Module StrategicGoal.
Record t : Type := mk
  { id : string; text : string; isCompleted : bool }.
End StrategicGoal.

(** The object [addComment] queues under ['pr_local_comments']. *)
Module LocalComment.
Record t : Type := mk
  { id : string;
    post_id : string;
    author_id : option string;
    content : string;
    created_at : string;
    is_local : bool }.
End LocalComment.

(** ** Rows as the gateway returns them (SQL column names) *)

Module ProfileRow.
Record t : Type := mk
  { id : string;
    name : option string;
    email : option string;
    business_name : option string;
    sector : option string;
    latitude : option Q;
    longitude : option Q;
    address : option string;
    city : option string;
    avatar_url : option string;
    joined_date : option string;
    status : option string;
    training_progress : option Z;
    badges : option (list string);
    role : option string;
    completed_trainings : option (list string) }.

Definition with_email (p : t) (e : option string) : t :=
  mk (id p) (name p) e (business_name p) (sector p) (latitude p)
     (longitude p) (address p) (city p) (avatar_url p) (joined_date p)
     (status p) (training_progress p) (badges p) (role p)
     (completed_trainings p).
End ProfileRow.

(** The embedded [profiles(name, avatar_url)] join. *)
Module ProfileRef.
Record t : Type := mk
  { name : option string; avatar_url : option string }.
End ProfileRef.

Module PostRow.
Record t : Type := mk
  { id : string;
    author_id : option string;
    content : string;
    type : string;
    likes_count : option Z;
    comments : option (list Z);            (* [comments(count)] *)
    created_at : option string;
    image_url : option string;
    liked_by : option (list string);
    profiles : option ProfileRef.t }.
End PostRow.

Module CommentRow.
Record t : Type := mk
  { id : string;
    content : string;
    created_at : option string;
    profiles : option ProfileRef.t }.
End CommentRow.

Module TrainingRow.
Record t : Type := mk
  { id : string;
    title : string;
    description : string;
    type : string;
    url : string;
    duration : option string;
    created_at : option string;
    author_name : option string }.
End TrainingRow.

Module MessageRow.
Record t : Type := mk
  { id : string;
    author_id : option string;
    content : string;
    created_at : string;
    profiles : option ProfileRef.t }.
End MessageRow.

(** Session data of [supabase.auth]. *)
Module AuthUser.
Record t : Type := mk { id : string; email : option string }.
End AuthUser.

Module Session.
Record t : Type := mk { user : option AuthUser.t }.
End Session.

(** The object handed to [profiles.update(...)]; an absent key is [None]. *)
Module ProfileUpdate.
Record t : Type := mk
  { name : option string;
    business_name : option string;
    sector : option string;
    city : option string;
    address : option string;
    avatar_url : option string;
    role : option string;
    latitude : option Q;
    longitude : option Q;
    completed_trainings : option (list string);
    training_progress : option Z }.

Definition empty : t :=
  mk None None None None None None None None None None None.
End ProfileUpdate.

(** Arguments of [updateUser] and [register] (both take loosely typed
    objects; only the keys the service reads are kept). *)
Module UserUpdates.
Record t : Type := mk
  { name : option string;
    businessName : option string;
    sector : option string;
    city : option string;
    address : option string;
    avatar : option string;
    role : option string }.
End UserUpdates.

Module RegisterData.
Record t : Type := mk
  { email : option string;
    password : option string;
    name : option string;
    businessName : option string;
    sector : option string;
    city : option string;
    address : option string;
    role : option string }.
End RegisterData.

Module LocationDetails.
Record t : Type := mk
  { city : option string; address : option string }.
End LocationDetails.

(** ** The environment the file imports *)

Record Platform : Type := mkPlatform
  { (* [../types]: records the service only stores and returns *)
    Notification : Type;
    ClusterVictory : Type;
    VictoryData : Type;
    victory_id : ClusterVictory -> string;
    (* [{...v, ...data}] *)
    victory_spread : ClusterVictory -> VictoryData -> ClusterVictory;
    (* [../constants] *)
    MOCK_MEMBERS : list Member.t;
    MOCK_POSTS : list Post.t;
    MOCK_TRAININGS : list TrainingResource.t;
    (* the JavaScript runtime *)
    encodeURIComponent : string -> string;
    (* [new Date(x).toLocaleDateString()] *)
    toLocaleDateString : option string -> string;
    (* [new Date(x).toLocaleDateString('fr-FR', {day, month, hour, minute})] *)
    toLocaleDateStringFr : option string -> string;
    (* [new Date(x).toLocaleTimeString([], {hour, minute})] *)
    toLocaleTimeString : option string -> string;
    (* [new Date().toISOString()] when the clock reads the argument *)
    toISOString : Z -> string;
    (* [a.localeCompare(b)]: a consistent comparator (ECMA-402) *)
    localeCompare : string -> string -> Z;
    localeCompare_total :
      forall a b, localeCompare a b <= 0 \/ localeCompare b a <= 0;
    localeCompare_trans :
      forall a b c, localeCompare a b <= 0 -> localeCompare b c <= 0 ->
                    localeCompare a c <= 0 }.

(** ** The gateway: one constructor per Supabase call the service makes.
    The index is the type of the [data] a successful response carries. *)

Inductive Request : Type -> Type :=
| AuthGetSession : Request (option Session.t)
| AuthSignInWithPassword (email password : string) :
    Request (option AuthUser.t)
| AuthSignOut : Request unit
| AuthSignUp (email password : string) (name businessName : option string) :
    Request (option AuthUser.t)
| ProfilesSelectAll : Request (list ProfileRow.t)
| ProfilesSelectSingle (id : string) : Request ProfileRow.t
| ProfilesSelectCompleted (id : string) : Request (option (list string))
| ProfilesUpdate (id : string) (updates : ProfileUpdate.t) : Request unit
| PostsSelect : Request (list PostRow.t)
| PostsInsert (author_id : option string) (content type : string)
    (image_url : option string) : Request unit
| PostsUpdate (id : string) (likes_count : Z) (liked_by : list string) :
    Request unit
| CommentsInsert (post_id : string) (author_id : option string)
    (content : string) : Request unit
| CommentsSelect (post_id : string) : Request (list CommentRow.t)
| TrainingsSelect : Request (list TrainingRow.t)
| TrainingsInsert (t : TrainingResource.t) : Request unit
| MessagesSelect (limit : Z) (lt_created_at : option string) :
    Request (list MessageRow.t)
| MessagesInsert (author_id : option string) (content : option string) :
    Request MessageRow.t
| MessagesDelete (id : string) : Request unit.

(** What an [await] on the gateway produces: the promise rejects, or it
    resolves to [{ data, error }]. *)
Inductive Response (R : Type) : Type :=
| Rejected (e : Exn)
| Resolved (data : option R) (error : option Exn).

Arguments Rejected {R} e.
Arguments Resolved {R} data error.

(** A gateway failure, as the [try] blocks see it. *)
Definition failed {R} (r : Response R) : Prop :=
  match r with
  | Rejected _ => True
  | Resolved _ (Some _) => True
  | Resolved _ None => False
  end.

(** ** The cache *)

Record CacheEntry (T : Type) : Type := mkEntry
  { data : option (list T); timestamp : Z }.

Arguments mkEntry {T} _ _.

Inductive CacheKey : Type := Kmembers | Kposts | Ktrainings | Kmessages.

Record Cache : Type := mkCache
  { members : CacheEntry Member.t;
    posts : CacheEntry Post.t;
    trainings : CacheEntry TrainingResource.t;
    messages : CacheEntry DiscussionMessage.t }.

Definition CACHE_DURATION : Z := 5 * 60 * 1000.

(** The initial value of the module-level [CACHE]. *)
Definition CACHE_init : Cache :=
  mkCache (mkEntry None 0) (mkEntry None 0) (mkEntry None 0) (mkEntry None 0).

Definition set_members (e : CacheEntry Member.t) (c : Cache) : Cache :=
  mkCache e (posts c) (trainings c) (messages c).
Definition set_posts (e : CacheEntry Post.t) (c : Cache) : Cache :=
  mkCache (members c) e (trainings c) (messages c).
Definition set_trainings (e : CacheEntry TrainingResource.t) (c : Cache)
  : Cache :=
  mkCache (members c) (posts c) e (messages c).
Definition set_messages (e : CacheEntry DiscussionMessage.t) (c : Cache)
  : Cache :=
  mkCache (members c) (posts c) (trainings c) e.

(** [entry.data && (now - entry.timestamp < CACHE_DURATION)] *)
Definition entry_valid {T} (e : CacheEntry T) (now : Z) : bool :=
  match data e with
  | Some _ => now - timestamp e <? CACHE_DURATION
  | None => false
  end.

(** [entry.data = f(entry.data)] on a non-null entry; the timestamp stays. *)
Definition patch_entry {T} (f : list T -> list T) (e : CacheEntry T)
  : CacheEntry T :=
  match data e with
  | Some d => mkEntry (Some (f d)) (timestamp e)
  | None => e
  end.

Definition cache_valid (key : CacheKey) (c : Cache) (now : Z) : bool :=
  match key with
  | Kmembers => entry_valid (members c) now
  | Kposts => entry_valid (posts c) now
  | Ktrainings => entry_valid (trainings c) now
  | Kmessages => entry_valid (messages c) now
  end.

(** [CACHE[key].timestamp], and whether [CACHE[key].data] is non-null. *)
Definition key_timestamp (key : CacheKey) (c : Cache) : Z :=
  match key with
  | Kmembers => timestamp (members c)
  | Kposts => timestamp (posts c)
  | Ktrainings => timestamp (trainings c)
  | Kmessages => timestamp (messages c)
  end.

Definition has_data {T} (e : CacheEntry T) : bool :=
  match data e with Some _ => true | None => false end.

Definition key_has_data (key : CacheKey) (c : Cache) : bool :=
  match key with
  | Kmembers => has_data (members c)
  | Kposts => has_data (posts c)
  | Ktrainings => has_data (trainings c)
  | Kmessages => has_data (messages c)
  end.

Definition cache_invalidate (key : CacheKey) (c : Cache) : Cache :=
  match key with
  | Kmembers => set_members (mkEntry None 0) c
  | Kposts => set_posts (mkEntry None 0) c
  | Ktrainings => set_trainings (mkEntry None 0) c
  | Kmessages => set_messages (mkEntry None 0) c
  end.

(** How a call ends. *)
Inductive Outcome (A : Type) : Type :=
| Returned (a : A)
| Threw (e : Exn).

Arguments Returned {A} a.
Arguments Threw {A} e.

(** ** Worlds and resumptions *)

Section Service.

Variable P : Platform.

(** [localStorage], one field per key the service uses.  [None] is an absent
    key ([getItem] gives [null], read as ['[]']); a present key holds the
    array last written by [JSON.stringify]. *)
Record LocalStorage : Type := mkStore
  { pr_local_comments : option (list LocalComment.t);
    pr_notifs : option (list (Notification P));
    pr_goals : option (list StrategicGoal.t);
    pr_victories : option (list (ClusterVictory P)) }.

Record World : Type := mkWorld
  { CACHE : Cache;
    localStorage : LocalStorage;
    now : Z                       (* what [Date.now()] reads *) }.

Definition with_cache (c : Cache) (w : World) : World :=
  mkWorld c (localStorage w) (now w).
Definition with_store (s : LocalStorage) (w : World) : World :=
  mkWorld (CACHE w) s (now w).

(** A call in flight: finished (with the world it leaves), or suspended on a
    gateway request (with the world it leaves meanwhile) and waiting to be
    resumed with the response and the world of that later moment. *)
Inductive Async (A : Type) : Type :=
| Done (r : Outcome A) (w : World)
| Await (R : Type) (req : Request R) (w : World)
        (k : Response R -> World -> Async A).

Arguments Done {A} r w.
Arguments Await {A R} req w k.

Definition M (A : Type) : Type := World -> Async A.

Definition ret {A} (a : A) : M A := fun w => Done (Returned a) w.
Definition throw {A} (e : Exn) : M A := fun w => Done (Threw e) w.

Fixpoint bindA {A B} (t : Async A) (f : A -> M B) : Async B :=
  match t with
  | Done (Returned a) w => f a w
  | Done (Threw e) w => Done (Threw e) w
  | Await req w k => Await req w (fun r w' => bindA (k r w') f)
  end.

Definition bind {A B} (m : M A) (f : A -> M B) : M B :=
  fun w => bindA (m w) f.

(** [try { m } catch (e) { h e }] *)
Fixpoint catchA {A} (t : Async A) (h : Exn -> M A) : Async A :=
  match t with
  | Done (Returned a) w => Done (Returned a) w
  | Done (Threw e) w => h e w
  | Await req w k => Await req w (fun r w' => catchA (k r w') h)
  end.

Definition try_catch {A} (m : M A) (h : Exn -> M A) : M A :=
  fun w => catchA (m w) h.

Notation "x <- m ;; k" := (bind m (fun x => k))
  (at level 61, m at next level, right associativity).
Notation "' pat <- m ;; k" :=
  (bind m (fun x => match x with pat => k end))
  (at level 61, pat pattern, m at next level, right associativity).
Notation "m ;;; k" := (bind m (fun _ => k))
  (at level 61, right associativity).

(** [await req]: suspend, then destructure [{ data, error }]; a rejected
    promise throws at the [await]. *)
Definition await {R} (req : Request R) : M (option R * option Exn) :=
  fun w =>
    Await req w (fun r w' =>
      match r with
      | Rejected e => Done (Threw e) w'
      | Resolved d err => Done (Returned (d, err)) w'
      end).

Definition Date_now : M Z := fun w => ret (now w) w.
Definition read_cache : M Cache := fun w => ret (CACHE w) w.
Definition write_cache (f : Cache -> Cache) : M unit :=
  fun w => ret tt (with_cache (f (CACHE w)) w).
Definition read_store : M LocalStorage := fun w => ret (localStorage w) w.
Definition write_store (f : LocalStorage -> LocalStorage) : M unit :=
  fun w => ret tt (with_store (f (localStorage w)) w).

Definition isCacheValid (key : CacheKey) : M bool :=
  c <- read_cache ;; t <- Date_now ;; ret (cache_valid key c t).

Definition invalidateCache (key : CacheKey) : M unit :=
  write_cache (cache_invalidate key).

(** ** Mappers (SQL -> TypeScript) *)

Definition avatar_for (name : option string) (fallback : string) : string :=
  "https://ui-avatars.com/api/?name="
    ++ encodeURIComponent P (str_or name fallback) ++ "&background=random".

Definition mapProfileToMember (p : ProfileRow.t) : Member.t :=
  Member.mk
    (ProfileRow.id p)
    (str_or (ProfileRow.name p) "Utilisateur")
    (ProfileRow.email p)
    (str_or (ProfileRow.business_name p) "")
    (str_or (ProfileRow.sector p) "")
    (Location.mk
       (Q_or (ProfileRow.latitude p) 0)
       (Q_or (ProfileRow.longitude p) 0)
       (str_or (ProfileRow.address p) "")
       (str_or (ProfileRow.city p) ""))
    (str_or (ProfileRow.avatar_url p) (avatar_for (ProfileRow.name p) "User"))
    (toLocaleDateString P (ProfileRow.joined_date p))
    (str_or (ProfileRow.status p) "En Formation")
    (Z_or (ProfileRow.training_progress p) 0)
    (list_or (ProfileRow.badges p))
    (str_or (ProfileRow.role p) "MEMBER")
    (list_or (ProfileRow.completed_trainings p)).

(** [p.profiles?.name] *)
Definition ref_name (r : option ProfileRef.t) : option string :=
  match r with Some x => ProfileRef.name x | None => None end.
Definition ref_avatar (r : option ProfileRef.t) : option string :=
  match r with Some x => ProfileRef.avatar_url x | None => None end.

Definition mapPostToApp (p : PostRow.t) : Post.t :=
  Post.mk
    (PostRow.id p)
    (PostRow.author_id p)
    (PostRow.content p)
    (PostRow.type p)
    (Z_or (PostRow.likes_count p) 0)
    (match PostRow.comments p with
     | Some (c :: _) => Some c
     | Some [] => None
     | None => Some 0
     end)
    (toLocaleDateStringFr P (PostRow.created_at p))
    (PostRow.image_url p)
    (list_or (PostRow.liked_by p))
    []
    (str_or (ref_name (PostRow.profiles p)) "Membre Cluster")
    (str_or (ref_avatar (PostRow.profiles p))
            (avatar_for (ref_name (PostRow.profiles p)) "User")).

Definition mapTraining (t : TrainingRow.t) : TrainingResource.t :=
  TrainingResource.mk
    (TrainingRow.id t) (TrainingRow.title t) (TrainingRow.description t)
    (TrainingRow.type t) (TrainingRow.url t) (TrainingRow.duration t)
    (toLocaleDateString P (TrainingRow.created_at t))
    (TrainingRow.author_name t).

Definition mapMessage (m : MessageRow.t) : DiscussionMessage.t :=
  DiscussionMessage.mk
    (MessageRow.id m)
    (MessageRow.author_id m)
    (str_or (ref_name (MessageRow.profiles m)) "Inconnu")
    (str_or (ref_avatar (MessageRow.profiles m))
            (avatar_for (ref_name (MessageRow.profiles m)) "User"))
    (MessageRow.content m)
    (MessageRow.created_at m)
    (toLocaleTimeString P (Some (MessageRow.created_at m))).

Definition mapDbComment (c : CommentRow.t) : Comment.t :=
  Comment.mk
    (CommentRow.id c)
    (str_or (ref_name (CommentRow.profiles c)) "Visiteur")
    (CommentRow.content c)
    (toLocaleTimeString P (CommentRow.created_at c)).

Definition mapLocalComment (c : LocalComment.t) : Comment.t :=
  Comment.mk
    (LocalComment.id c)
    "Moi (Local)"
    (LocalComment.content c)
    (toLocaleTimeString P (Some (LocalComment.created_at c))).

(** ** The service *)

(** [CACHE.members.data.find(m => m.id === id)] *)
Definition find_member (id : string) (l : list Member.t) : option Member.t :=
  find (fun m => (Member.id m =? id)%string) l.

Definition member_with_email (m : Member.t) (e : option string) : Member.t :=
  Member.mk (Member.id m) (Member.name m) e (Member.businessName m)
    (Member.sector m) (Member.location m) (Member.avatar m)
    (Member.joinedDate m) (Member.status m) (Member.trainingProgress m)
    (Member.badges m) (Member.role m) (Member.completedTrainings m).

(** [{ ...profile, email }] when [profile] is [null]: an object with the
    [email] key alone.  Its [id] is [undefined]; the declared type has no
    such value and the model writes the empty string there. *)
Definition blank_profile : ProfileRow.t :=
  ProfileRow.mk "" None None None None None None None None None None None
                None None None None.

Definition getCurrentUser : M (option Member.t) :=
  try_catch
    ('(d, sessionError) <- await AuthGetSession ;;
     match d with
     | None => throw TypeError          (* destructuring [data: { session }] *)
     | Some session =>
       match sessionError with
       | Some e => throw e
       | None =>
         match session with
         | None | Some (Session.mk None) => ret None
         | Some (Session.mk (Some user)) =>
           valid <- isCacheValid Kmembers ;;
           c <- read_cache ;;
           let cachedUser :=
             match valid, data (members c) with
             | true, Some l => find_member (AuthUser.id user) l
             | _, _ => None
             end in
           match cachedUser with
           | Some m => ret (Some (member_with_email m (AuthUser.email user)))
           | None =>
             '(profile, error) <- await (ProfilesSelectSingle (AuthUser.id user)) ;;
             match error with
             | Some _ => ret None
             | None =>
               let row := match profile with
                          | Some p => p
                          | None => blank_profile
                          end in
               ret (Some (mapProfileToMember
                            (ProfileRow.with_email row (AuthUser.email user))))
             end
           end
         end
       end
     end)
    (fun _ => ret None).

Definition login (email password : string) : M (option Member.t) :=
  '(d, error) <- await (AuthSignInWithPassword email password) ;;
  match error with
  | Some e => throw e
  | None =>
    match d with
    | None => throw TypeError                 (* [data.user] on [null] *)
    | Some (Some _) => getCurrentUser
    | Some None => ret None
    end
  end.

Definition logout : M unit :=
  try_catch (await AuthSignOut ;;; ret tt) (fun _ => ret tt) ;;;
  invalidateCache Kmembers ;;;
  invalidateCache Kposts ;;;
  invalidateCache Ktrainings ;;;
  invalidateCache Kmessages.

(** The table [CITY_COORDS] of [register], looked up with its Kinshasa
    default (names inherited from [Object.prototype] are not modelled). *)
Definition CITY_COORDS (city : string) : option (Q * Q) :=
  if (city =? "Kinshasa")%string then Some (-44419 # 10000, 152663 # 10000)%Q
  else if (city =? "Pointe-Noire")%string
       then Some (-47855 # 10000, 118635 # 10000)%Q
  else if (city =? "Brazzaville")%string
       then Some (-42634 # 10000, 152429 # 10000)%Q
  else if (city =? "Lubumbashi")%string
       then Some (-116609 # 10000, 274794 # 10000)%Q
  else if (city =? "Goma")%string then Some (-16585 # 10000, 292205 # 10000)%Q
  else if (city =? "Matadi")%string then Some (-58405 # 10000, 134456 # 10000)%Q
  else None.

Definition baseCoords (city : option string) : Q * Q :=
  match CITY_COORDS (str_or city "Kinshasa") with
  | Some c => c
  | None => (-44419 # 10000, 152663 # 10000)%Q
  end.

(** [jitter1], [jitter2]: the two values [jitter()] draws from
    [Math.random()]. *)
Definition register (userData : RegisterData.t) (jitter1 jitter2 : Q)
  : M Member.t :=
  match RegisterData.email userData, RegisterData.password userData with
  | Some email, Some password =>
    if ((email =? "") || (password =? ""))%string
    then throw (Error "Email et mot de passe requis")
    else
      '(d, error) <- await (AuthSignUp email password
                              (RegisterData.name userData)
                              (RegisterData.businessName userData)) ;;
      match error with
      | Some e => throw e
      | None =>
        match d with
        | None => throw TypeError
        | Some None => throw (Error "Erreur création utilisateur")
        | Some (Some user) =>
          let base := baseCoords (RegisterData.city userData) in
          await (ProfilesUpdate (AuthUser.id user)
                   (ProfileUpdate.mk None None
                      (RegisterData.sector userData)
                      (RegisterData.city userData)
                      (RegisterData.address userData)
                      (Some (avatar_for (RegisterData.name userData) "User"))
                      (Some (str_or (RegisterData.role userData) "MEMBER"))
                      (Some (fst base + jitter1)%Q)
                      (Some (snd base + jitter2)%Q)
                      None None)) ;;;
          invalidateCache Kmembers ;;;
          user <- getCurrentUser ;;
          match user with
          | None => throw (Error "Erreur récupération profil après création")
          | Some u => ret u
          end
        end
      end
  | _, _ => throw (Error "Email et mot de passe requis")
  end.

(** [x] when truthy, else the key is left out. *)
Definition if_truthy (x : option string) : option string :=
  if truthy_str x then x else None.

Definition patch_location (coords : Q * Q) (details : option LocationDetails.t)
    (l : Location.t) : Location.t :=
  let city := match details with
              | Some d => if_truthy (LocationDetails.city d)
              | None => None
              end in
  let address := match details with
                 | Some d => if_truthy (LocationDetails.address d)
                 | None => None
                 end in
  Location.mk (fst coords) (snd coords)
    (match address with Some a => a | None => Location.address l end)
    (match city with Some c => c | None => Location.city l end).

Definition member_with_location (m : Member.t) (l : Location.t) : Member.t :=
  Member.mk (Member.id m) (Member.name m) (Member.email m)
    (Member.businessName m) (Member.sector m) l (Member.avatar m)
    (Member.joinedDate m) (Member.status m) (Member.trainingProgress m)
    (Member.badges m) (Member.role m) (Member.completedTrainings m).

Definition updateUserLocation (userId : string) (coords : Q * Q)
    (locationDetails : option LocationDetails.t) : M unit :=
  let updates :=
    ProfileUpdate.mk None None None
      (match locationDetails with
       | Some d => if_truthy (LocationDetails.city d) | None => None end)
      (match locationDetails with
       | Some d => if_truthy (LocationDetails.address d) | None => None end)
      None None (Some (fst coords)) (Some (snd coords)) None None in
  '(_, error) <- await (ProfilesUpdate userId updates) ;;
  match error with
  | Some e =>
    throw (Error ("Impossible de mettre à jour la localisation. " ++ message e))
  | None =>
    c <- read_cache ;;
    match data (members c) with
    | Some l =>
      write_cache (set_members
        (mkEntry
           (Some (map (fun m =>
                         if (Member.id m =? userId)%string
                         then member_with_location m
                                (patch_location coords locationDetails
                                                (Member.location m))
                         else m) l))
           (timestamp (members c))))
    | None => invalidateCache Kmembers
    end
  end.

Definition updateUser (userId : string) (updates : UserUpdates.t)
  : M (option Member.t) :=
  let dbUpdates :=
    ProfileUpdate.mk
      (if_truthy (UserUpdates.name updates))
      (if_truthy (UserUpdates.businessName updates))
      (if_truthy (UserUpdates.sector updates))
      (if_truthy (UserUpdates.city updates))
      (if_truthy (UserUpdates.address updates))
      (if_truthy (UserUpdates.avatar updates))
      (if_truthy (UserUpdates.role updates))
      None None None None in
  '(_, error) <- await (ProfilesUpdate userId dbUpdates) ;;
  match error with
  | Some e => throw (Error ("Échec de la mise à jour du profil. " ++ message e))
  | None => invalidateCache Kmembers ;;; getCurrentUser
  end.

Definition getAllMembers : M (list Member.t) :=
  valid <- isCacheValid Kmembers ;;
  c <- read_cache ;;
  match valid, data (members c) with
  | true, Some cached => ret cached
  | _, _ =>
    try_catch
      ('(d, error) <- await ProfilesSelectAll ;;
       match error with
       | Some e => throw e
       | None =>
         match d with
         | None => throw TypeError               (* [data.map] on [null] *)
         | Some rows =>
           let members := map mapProfileToMember rows in
           t <- Date_now ;;
           write_cache (set_members (mkEntry (Some members) t)) ;;;
           ret members
         end
       end)
      (fun _ =>
         c <- read_cache ;;
         match data (members c) with
         | Some cached => ret cached
         | None => ret (MOCK_MEMBERS P)
         end)
  end.

(** *** Posts *)

Definition getPosts (forceRefresh : bool) : M (list Post.t) :=
  valid <- (if forceRefresh then ret false else isCacheValid Kposts) ;;
  c <- read_cache ;;
  match valid, data (posts c) with
  | true, Some cached => ret cached
  | _, _ =>
    try_catch
      ('(d, error) <- await PostsSelect ;;
       match error with
       | Some e => throw e
       | None =>
         match d with
         | None => throw TypeError
         | Some rows =>
           let posts := map mapPostToApp rows in
           t <- Date_now ;;
           write_cache (set_posts (mkEntry (Some posts) t)) ;;;
           ret posts
         end
       end)
      (fun _ =>
         c <- read_cache ;;
         match data (posts c) with
         | Some cached => ret cached
         | None => ret (MOCK_POSTS P)
         end)
  end.

Definition addPost (post : Post.t) : M unit :=
  '(_, error) <- await (PostsInsert (Post.authorId post) (Post.content post)
                          (Post.type post) (Post.image post)) ;;
  match error with
  | Some e => throw (Error ("Impossible de publier le post. " ++ message e))
  | None => invalidateCache Kposts
  end.

(** [CACHE.posts.data.map(p => p.id === post.id ? post : p)] *)
Definition replace_post (post : Post.t) (l : list Post.t) : list Post.t :=
  map (fun p => if (Post.id p =? Post.id post)%string then post else p) l.

Definition updatePost (post : Post.t) : M unit :=
  write_cache (fun c => set_posts (patch_entry (replace_post post) (posts c)) c) ;;;
  try_catch
    ('(_, error) <- await (PostsUpdate (Post.id post) (Post.likes post)
                             (Post.likedBy post)) ;;
     match error with
     | Some e => throw e
     | None => ret tt
     end)
    (fun _ => ret tt).

(** [authorId || null] *)
Definition or_null (x : option string) : option string := if_truthy x.

Definition newLocalComment (postId content : string) (authorId : option string)
    (t : Z) : LocalComment.t :=
  LocalComment.mk ("local-" ++ Z_to_string t) postId authorId content
                  (toISOString P t) true.

Definition set_local_comments (l : list LocalComment.t) (s : LocalStorage)
  : LocalStorage :=
  mkStore (Some l) (pr_notifs s) (pr_goals s) (pr_victories s).

Definition addComment (postId content : string) (authorId : option string)
  : M unit :=
  try_catch
    ('(_, error) <- await (CommentsInsert postId (or_null authorId) content) ;;
     match error with
     | Some e => throw e
     | None => invalidateCache Kposts
     end)
    (fun _ =>
       s <- read_store ;;
       let localComments := list_or (pr_local_comments s) in
       t <- Date_now ;;
       write_store (set_local_comments
                      (localComments ++ [newLocalComment postId content authorId t])) ;;;
       invalidateCache Kposts).

(** [Array.prototype.sort] with a comparator: the sort is stable, so for a
    consistent comparator the result is the one of any stable sort; written
    here as insertion from the right. *)
Fixpoint sort_insert {A} (cmp : A -> A -> Z) (x : A) (l : list A) : list A :=
  match l with
  | [] => [x]
  | y :: l' => if cmp x y <=? 0 then x :: l else y :: sort_insert cmp x l'
  end.

Fixpoint js_sort {A} (cmp : A -> A -> Z) (l : list A) : list A :=
  match l with
  | [] => []
  | x :: l' => sort_insert cmp x (js_sort cmp l')
  end.

Definition compare_timestamp (a b : Comment.t) : Z :=
  localeCompare P (Comment.timestamp a) (Comment.timestamp b).

(** The queued comments of one post, as [getCommentsForPost] renders them. *)
Definition local_comments_for (postId : string) (s : LocalStorage)
  : list Comment.t :=
  map mapLocalComment
    (filter (fun c => (LocalComment.post_id c =? postId)%string)
            (list_or (pr_local_comments s))).

Definition getCommentsForPost (postId : string) : M (list Comment.t) :=
  try_catch
    ('(d, error) <- await (CommentsSelect postId) ;;
     match error with
     | Some e => throw e
     | None =>
       let dbComments := map mapDbComment (list_or d) in
       s <- read_store ;;
       let localComments := local_comments_for postId s in
       ret (js_sort compare_timestamp (dbComments ++ localComments))
     end)
    (fun _ =>
       s <- read_store ;;
       ret (local_comments_for postId s)).

(** *** Trainings *)

Definition getTrainings : M (list TrainingResource.t) :=
  valid <- isCacheValid Ktrainings ;;
  c <- read_cache ;;
  match valid, data (trainings c) with
  | true, Some cached => ret cached
  | _, _ =>
    try_catch
      ('(d, error) <- await TrainingsSelect ;;
       match error with
       | Some e => throw e
       | None =>
         match d with
         | None => throw TypeError
         | Some rows =>
           let trainings := map mapTraining rows in
           t <- Date_now ;;
           write_cache (set_trainings (mkEntry (Some trainings) t)) ;;;
           ret trainings
         end
       end)
      (fun _ =>
         c <- read_cache ;;
         match data (trainings c) with
         | Some cached => ret cached
         | None => ret (MOCK_TRAININGS P)
         end)
  end.

Definition addTraining (training : TrainingResource.t) : M unit :=
  '(_, error) <- await (TrainingsInsert training) ;;
  match error with
  | Some e => throw (Error ("Impossible d'ajouter la formation. " ++ message e))
  | None => invalidateCache Ktrainings
  end.

(** [Math.round((n / total) * 100)] for a positive [total], computed on
    exact rationals.  The code computes on doubles, which can fall one short
    where the exact value ends in one half (23 of 40: 58 here, 57 there);
    for [total = 10] the two agree. *)
Definition progress_percent (n total : Z) : Z :=
  (200 * n + total) / (2 * total).

Definition markTrainingCompleted (userId trainingId : string) : M unit :=
  try_catch
    ('(profile, _) <- await (ProfilesSelectCompleted userId) ;;
     match profile with
     | None => ret tt
     | Some completed =>
       let current := list_or completed in
       if existsb (String.eqb trainingId) current then ret tt
       else
         let updated := current ++ [trainingId] in
         valid <- isCacheValid Ktrainings ;;
         c <- read_cache ;;
         let total :=
           match valid, data (trainings c) with
           | true, Some l => Z_or (Some (Z.of_nat (List.length l))) 1
           | _, _ => 10
           end in
         let progress := progress_percent (Z.of_nat (List.length updated)) total in
         await (ProfilesUpdate userId
                  (ProfileUpdate.mk None None None None None None None None None
                                    (Some updated) (Some progress))) ;;;
         invalidateCache Kmembers
     end)
    (fun _ => ret tt).

(** *** Discussion *)

Definition getCachedMessages : M (list DiscussionMessage.t) :=
  c <- read_cache ;; ret (list_or (data (messages c))).

Definition syncMessageCache (msgs : list DiscussionMessage.t) : M unit :=
  t <- Date_now ;; write_cache (set_messages (mkEntry (Some msgs) t)).

(** [existingIds.has(m.id)] for [existingIds = new Set(cached.map(m => m.id))] *)
Definition has_id (cached : list DiscussionMessage.t) (id : string) : bool :=
  existsb (String.eqb id) (map DiscussionMessage.id cached).

Definition uniqueNew (cached newMessages : list DiscussionMessage.t)
  : list DiscussionMessage.t :=
  filter (fun m => negb (has_id cached (DiscussionMessage.id m))) newMessages.

(** [limit = 10]: the default of an omitted argument. *)
Definition default_limit (limit_arg : option Z) : Z :=
  match limit_arg with Some n => n | None => 10 end.

Definition getDiscussionMessages (limit_arg : option Z)
    (beforeTimestamp : option string) : M (list DiscussionMessage.t) :=
  let limit := default_limit limit_arg in
  let cursor := truthy_str beforeTimestamp in
  let fetch : M (list DiscussionMessage.t) :=
    try_catch
      ('(d, error) <- await (MessagesSelect limit
                               (if cursor then beforeTimestamp else None)) ;;
       match error with
       | Some e => throw e
       | None =>
         match d with
         | None => ret []
         | Some rows =>
           let newMessages := map mapMessage (rev rows) in
           (if cursor
            then
              c <- read_cache ;;
              match data (messages c) with
              | Some cached =>
                write_cache (set_messages
                  (mkEntry (Some (uniqueNew cached newMessages ++ cached))
                           (timestamp (messages c))))
              | None => ret tt
              end
            else
              t <- Date_now ;;
              write_cache (set_messages (mkEntry (Some newMessages) t))) ;;;
           ret newMessages
         end
       end)
      (fun _ =>
         c <- read_cache ;;
         match data (messages c) with
         | Some cached =>
           if cursor then ret [] else ret (slice_from (- limit) cached)
         | None => ret []
         end) in
  valid <- (if cursor then ret false else isCacheValid Kmessages) ;;
  c <- read_cache ;;
  match valid, data (messages c) with
  | true, Some cached =>
    if Z.of_nat (List.length cached) >=? limit
    then ret (slice_from (- limit) cached)
    else fetch
  | _, _ => fetch
  end.

Definition addDiscussionMessage (authorId content : option string)
  : M DiscussionMessage.t :=
  '(d, error) <- await (MessagesInsert authorId content) ;;
  match error with
  | Some e => throw (Error (message e))
  | None =>
    match d with
    | None => throw TypeError                   (* [data.id] on [null] *)
    | Some row =>
      let formatted := mapMessage row in
      c <- read_cache ;;
      match data (messages c) with
      | Some cached =>
        write_cache (set_messages
          (mkEntry (Some (cached ++ [formatted])) (timestamp (messages c))))
      | None =>
        t <- Date_now ;;
        write_cache (set_messages (mkEntry (Some [formatted]) t))
      end ;;;
      ret formatted
    end
  end.

(** [CACHE.messages.data.filter(m => m.id !== messageId)] *)
Definition remove_message (messageId : string) (l : list DiscussionMessage.t)
  : list DiscussionMessage.t :=
  filter (fun m => negb (DiscussionMessage.id m =? messageId)%string) l.

Definition deleteDiscussionMessage (messageId : string) : M unit :=
  '(_, error) <- await (MessagesDelete messageId) ;;
  match error with
  | Some e => throw (Error (message e))
  | None =>
    write_cache (fun c =>
      set_messages (patch_entry (remove_message messageId) (messages c)) c)
  end.

(** *** Other (localStorage) *)

Definition set_notifs (l : list (Notification P)) (s : LocalStorage)
  : LocalStorage :=
  mkStore (pr_local_comments s) (Some l) (pr_goals s) (pr_victories s).
Definition set_goals (l : list StrategicGoal.t) (s : LocalStorage)
  : LocalStorage :=
  mkStore (pr_local_comments s) (pr_notifs s) (Some l) (pr_victories s).
Definition set_victories (l : list (ClusterVictory P)) (s : LocalStorage)
  : LocalStorage :=
  mkStore (pr_local_comments s) (pr_notifs s) (pr_goals s) (Some l).

Definition getNotifications : M (list (Notification P)) :=
  s <- read_store ;; ret (list_or (pr_notifs s)).

Definition addNotification (n : Notification P) : M unit :=
  s <- read_store ;;
  write_store (set_notifs (n :: list_or (pr_notifs s))).

Definition getStrategicGoals : M (list StrategicGoal.t) :=
  s <- read_store ;; ret (list_or (pr_goals s)).

Definition addStrategicGoal (text : string) : M (list StrategicGoal.t) :=
  s <- read_store ;;
  t <- Date_now ;;
  let updated :=
    list_or (pr_goals s) ++ [StrategicGoal.mk (Z_to_string t) text false] in
  write_store (set_goals updated) ;;;
  ret updated.

Definition toggleStrategicGoal (id : string) : M (list StrategicGoal.t) :=
  s <- read_store ;;
  let updated :=
    map (fun g =>
           if (StrategicGoal.id g =? id)%string
           then StrategicGoal.mk (StrategicGoal.id g) (StrategicGoal.text g)
                                 (negb (StrategicGoal.isCompleted g))
           else g)
        (list_or (pr_goals s)) in
  write_store (set_goals updated) ;;;
  ret updated.

Definition deleteStrategicGoal (id : string) : M (list StrategicGoal.t) :=
  s <- read_store ;;
  let updated :=
    filter (fun g => negb (StrategicGoal.id g =? id)%string)
           (list_or (pr_goals s)) in
  write_store (set_goals updated) ;;;
  ret updated.

Definition getVictories : M (list (ClusterVictory P)) :=
  s <- read_store ;; ret (list_or (pr_victories s)).

Definition addVictory (v : ClusterVictory P) : M (list (ClusterVictory P)) :=
  s <- read_store ;;
  let updated := v :: list_or (pr_victories s) in
  write_store (set_victories updated) ;;;
  ret updated.

Definition updateVictory (id : string) (d : VictoryData P)
  : M (list (ClusterVictory P)) :=
  s <- read_store ;;
  let updated :=
    map (fun v => if (victory_id P v =? id)%string
                  then victory_spread P v d else v)
        (list_or (pr_victories s)) in
  write_store (set_victories updated) ;;;
  ret updated.

Definition deleteVictory (id : string) : M (list (ClusterVictory P)) :=
  s <- read_store ;;
  let updated :=
    filter (fun v => negb (victory_id P v =? id)%string)
           (list_or (pr_victories s)) in
  write_store (set_victories updated) ;;;
  ret updated.

(** ** Every operation of [storageService], with its arguments *)

Inductive Operation : Type :=
| OpGetCurrentUser
| OpLogin (email password : string)
| OpLogout
| OpRegister (userData : RegisterData.t) (jitter1 jitter2 : Q)
| OpUpdateUserLocation (userId : string) (coords : Q * Q)
    (locationDetails : option LocationDetails.t)
| OpUpdateUser (userId : string) (updates : UserUpdates.t)
| OpGetAllMembers
| OpGetPosts (forceRefresh : bool)
| OpAddPost (post : Post.t)
| OpUpdatePost (post : Post.t)
| OpAddComment (postId content : string) (authorId : option string)
| OpGetCommentsForPost (postId : string)
| OpGetTrainings
| OpAddTraining (training : TrainingResource.t)
| OpMarkTrainingCompleted (userId trainingId : string)
| OpGetCachedMessages
| OpSyncMessageCache (msgs : list DiscussionMessage.t)
| OpGetDiscussionMessages (limit : option Z) (beforeTimestamp : option string)
| OpAddDiscussionMessage (authorId content : option string)
| OpDeleteDiscussionMessage (messageId : string)
| OpGetNotifications
| OpAddNotification (n : Notification P)
| OpGetStrategicGoals
| OpAddStrategicGoal (text : string)
| OpToggleStrategicGoal (id : string)
| OpDeleteStrategicGoal (id : string)
| OpGetVictories
| OpAddVictory (v : ClusterVictory P)
| OpUpdateVictory (id : string) (d : VictoryData P)
| OpDeleteVictory (id : string).

(** Forget what a call returns: only its effect on the world is kept. *)
Definition void {A} (m : M A) : M unit := m ;;; ret tt.

Definition perform (op : Operation) : M unit :=
  match op with
  | OpGetCurrentUser => void getCurrentUser
  | OpLogin e p => void (login e p)
  | OpLogout => logout
  | OpRegister u j1 j2 => void (register u j1 j2)
  | OpUpdateUserLocation u c d => updateUserLocation u c d
  | OpUpdateUser u x => void (updateUser u x)
  | OpGetAllMembers => void getAllMembers
  | OpGetPosts f => void (getPosts f)
  | OpAddPost p => addPost p
  | OpUpdatePost p => updatePost p
  | OpAddComment p c a => addComment p c a
  | OpGetCommentsForPost p => void (getCommentsForPost p)
  | OpGetTrainings => void getTrainings
  | OpAddTraining t => addTraining t
  | OpMarkTrainingCompleted u t => markTrainingCompleted u t
  | OpGetCachedMessages => void getCachedMessages
  | OpSyncMessageCache m => syncMessageCache m
  | OpGetDiscussionMessages l b => void (getDiscussionMessages l b)
  | OpAddDiscussionMessage a c => void (addDiscussionMessage a c)
  | OpDeleteDiscussionMessage m => deleteDiscussionMessage m
  | OpGetNotifications => void getNotifications
  | OpAddNotification n => addNotification n
  | OpGetStrategicGoals => void getStrategicGoals
  | OpAddStrategicGoal t => void (addStrategicGoal t)
  | OpToggleStrategicGoal i => void (toggleStrategicGoal i)
  | OpDeleteStrategicGoal i => void (deleteStrategicGoal i)
  | OpGetVictories => void getVictories
  | OpAddVictory v => void (addVictory v)
  | OpUpdateVictory i d => void (updateVictory i d)
  | OpDeleteVictory i => void (deleteVictory i)
  end.

(** ** Running a call

    An environment answers every gateway request and says what becomes of
    the world while a call is suspended (the clock moves, other calls run). *)
Record Env : Type := mkEnv
  { respond : forall R, Request R -> Response R;
    meanwhile : World -> World }.

Fixpoint run {A} (env : Env) (t : Async A) : Outcome A * World :=
  match t with
  | Done o w => (o, w)
  | Await req w k => run env (k (respond env req) (meanwhile env w))
  end.

(** Number of gateway requests a call issues in that environment. *)
Fixpoint gateway_calls {A} (env : Env) (t : Async A) : nat :=
  match t with
  | Done _ _ => O
  | Await req w k =>
    S (gateway_calls env (k (respond env req) (meanwhile env w)))
  end.

(** [I] holds of every world the call leaves behind, at each suspension and
    at the end, provided it holds of every world the call is resumed in. *)
Fixpoint preserves {A} (I : World -> Prop) (t : Async A) : Prop :=
  match t with
  | Done _ w => I w
  | Await _ w k => I w /\ forall r w', I w' -> preserves I (k r w')
  end.

(** [m] keeps [I] from whatever world it is started in. *)
Definition keeps {A} (I : World -> Prop) (m : M A) : Prop :=
  forall w, I w -> preserves I (m w).

(** [data == null => timestamp == 0] *)
Definition entry_inv {T} (e : CacheEntry T) : Prop :=
  data e = None -> timestamp e = 0.

Definition cache_inv (c : Cache) : Prop :=
  entry_inv (members c) /\ entry_inv (posts c) /\
  entry_inv (trainings c) /\ entry_inv (messages c).

Definition world_inv (w : World) : Prop := cache_inv (CACHE w).

(** The entry is fresh at time [t] and holds [d]. *)
Definition fresh {T} (e : CacheEntry T) (t : Z) (d : list T) : Prop :=
  data e = Some d /\ t - timestamp e < CACHE_DURATION.

(** The entry's freshness window has run out at time [t]. *)
Definition expired {T} (e : CacheEntry T) (t : Z) : Prop :=
  CACHE_DURATION <= t - timestamp e.

(** [a] is not after [b] in the order of [Comment.timestamp] strings. *)
Definition timestamp_le (a b : Comment.t) : Prop :=
  localeCompare P (Comment.timestamp a) (Comment.timestamp b) <= 0.



(** The world after [updatePost]'s optimistic patch. *)
Definition patched_world (post : Post.t) (w : World) : World :=
  with_cache (set_posts (patch_entry (replace_post post) (posts (CACHE w)))
                        (CACHE w)) w.

(** The world after [addComment]'s fallback at clock value [now w]. *)
Definition queued_world (postId content : string) (authorId : option string)
    (w : World) : World :=
  with_cache (cache_invalidate Kposts (CACHE w))
    (with_store
       (set_local_comments
          (list_or (pr_local_comments (localStorage w))
             ++ [newLocalComment postId content authorId (now w)])
          (localStorage w))
       w).


End Service.

(** ** Observations on calls *)

Section Observations.

Variable P : Platform.

(** The same world, the clock reading [t]. *)
Definition at_clock (t : Z) (w : World P) : World P :=
  mkWorld (CACHE w) (localStorage w) t.

(** The call ends by returning, never by throwing, whatever the gateway
    answers and whatever world it is resumed in. *)
Fixpoint never_throws {A} (t : Async P A) : Prop :=
  match t with
  | Done (Returned _) _ => True
  | Done (Threw _) _ => False
  | Await _ _ k => forall r w', never_throws (k r w')
  end.

(** The call suspends on the gateway at most [n] times before it ends. *)
Fixpoint calls_at_most {A} (n : nat) (t : Async P A) : Prop :=
  match t with
  | Done _ _ => True
  | Await _ _ k =>
    match n with
    | O => False
    | S n' => forall r w', calls_at_most n' (k r w')
    end
  end.

(** The most gateway requests one call of each operation can issue. *)
Definition max_calls (op : Operation P) : nat :=
  match op with
  | OpRegister _ _ _ _ => 4
  | OpLogin _ _ _ | OpUpdateUser _ _ _ => 3
  | OpGetCurrentUser _ | OpMarkTrainingCompleted _ _ _ => 2
  | OpLogout _ | OpUpdateUserLocation _ _ _ _ | OpGetAllMembers _
  | OpGetPosts _ _ | OpAddPost _ _ | OpUpdatePost _ _ | OpAddComment _ _ _ _
  | OpGetCommentsForPost _ _ | OpGetTrainings _ | OpAddTraining _ _
  | OpGetDiscussionMessages _ _ _ | OpAddDiscussionMessage _ _ _
  | OpDeleteDiscussionMessage _ _ => 1
  | _ => 0
  end%nat.

(** Operations run one after the other, each to its end. *)
Fixpoint run_all (env : Env P) (ops : list (Operation P)) (w : World P)
  : World P :=
  match ops with
  | [] => w
  | op :: rest => run_all env rest (snd (run env (perform op w)))
  end.

(** The comments queued under ['pr_local_comments']. *)
Definition queue (w : World P) : list LocalComment.t :=
  list_or (pr_local_comments (localStorage w)).

(** [a] is an initial segment of [b]. *)
Definition is_prefix {A} (a b : list A) : Prop := exists rest, b = a ++ rest.

(** The queue of [w] still starts with [q]. *)
Definition queue_extends (q : list LocalComment.t) (w : World P) : Prop :=
  is_prefix q (queue w).

(** The operations whose code assigns to [CACHE], and those that call
    [localStorage.setItem]. *)
Definition touches_cache (op : Operation P) : bool :=
  match op with
  | OpGetCurrentUser _ | OpLogin _ _ _ | OpGetCommentsForPost _ _
  | OpGetCachedMessages _ | OpGetNotifications _ | OpAddNotification _ _
  | OpGetStrategicGoals _ | OpAddStrategicGoal _ _
  | OpToggleStrategicGoal _ _ | OpDeleteStrategicGoal _ _
  | OpGetVictories _ | OpAddVictory _ _ | OpUpdateVictory _ _ _
  | OpDeleteVictory _ _ => false
  | _ => true
  end.

Definition writes_store (op : Operation P) : bool :=
  match op with
  | OpAddComment _ _ _ _ | OpAddNotification _ _ | OpAddStrategicGoal _ _
  | OpToggleStrategicGoal _ _ | OpDeleteStrategicGoal _ _
  | OpAddVictory _ _ | OpUpdateVictory _ _ _ | OpDeleteVictory _ _ => true
  | _ => false
  end.

(** The strategic goals stored under ['pr_goals']. *)
Definition goals (w : World P) : list StrategicGoal.t :=
  list_or (pr_goals (localStorage w)).

End Observations.


(** * A concrete platform and concrete scenarios *)

(** Byte-wise string comparison, as a stand-in for a locale's collation. *)
Definition byte_compare (a b : string) : Z :=
  match String.compare a b with
  | Lt => -1
  | Eq => 0
  | Gt => 1
  end.

Lemma byte_compare_le a b :
  byte_compare a b <= 0 <-> a = b \/ String_as_OT.lt a b.
Proof.
  unfold byte_compare.
  destruct (String.compare a b) eqn:E; split; intros H; try lia.
  - left. apply String_as_OT.cmp_eq. exact E.
  - right. apply String_as_OT.cmp_lt. exact E.
  - exfalso. destruct H as [H|H].
    + apply String_as_OT.cmp_eq in H. unfold String_as_OT.cmp in H. congruence.
    + apply String_as_OT.cmp_lt in H. unfold String_as_OT.cmp in H. congruence.
Qed.

Lemma byte_compare_total a b :
  byte_compare a b <= 0 \/ byte_compare b a <= 0.
Proof.
  unfold byte_compare. rewrite (String.compare_antisym a b).
  destruct (String.compare b a); cbn; lia.
Qed.

Lemma byte_compare_trans a b c :
  byte_compare a b <= 0 -> byte_compare b c <= 0 -> byte_compare a c <= 0.
Proof.
  rewrite !byte_compare_le. intros [->|Hab] [->|Hbc]; auto.
  right. eapply String_as_OT.lt_trans; eassumption.
Qed.

Definition pad2 (n : Z) : string :=
  if n <? 10 then "0" ++ Z_to_string n else Z_to_string n.

Definition pad3 (n : Z) : string :=
  if n <? 10 then "00" ++ Z_to_string n
  else if n <? 100 then "0" ++ Z_to_string n else Z_to_string n.

(** ISO rendering of a clock value within the first day of the epoch. *)
Definition epoch_day_iso (t : Z) : string :=
  "1970-01-01T" ++ pad2 (t / 3600000) ++ ":" ++ pad2 (t / 60000 mod 60)
    ++ ":" ++ pad2 (t / 1000 mod 60) ++ "." ++ pad3 (t mod 1000) ++ "Z".

(** The hour and minute of an ISO timestamp, the date dropped. *)
Definition hour_minute (x : option string) : string :=
  match x with
  | Some s => substring 11 5 s
  | None => "Invalid Date"
  end.

Definition iso_date (x : option string) : string :=
  match x with
  | Some s => substring 0 10 s
  | None => "Invalid Date"
  end.

Definition mock_member : Member.t :=
  Member.mk "mock-1" "Membre Test" (Some "test@example.org") "Atelier" "Textile"
    (Location.mk (-44419 # 10000) (152663 # 10000) "" "Kinshasa")
    "avatar.png" "1970-01-01" "En Formation" 0 [] "MEMBER" [].

Definition mock_post : Post.t :=
  Post.mk "mock-post-1" (Some "mock-1") "Bienvenue" "INFO" 0 (Some 0)
    "1 janv." None [] [] "Membre Test" "avatar.png".

Definition mock_training : TrainingResource.t :=
  TrainingResource.mk "mock-training-1" "Gestion" "Introduction" "VIDEO"
    "https://example.org/v" (Some "10 min") "1970-01-01" (Some "Formateur").

Definition demo : Platform :=
  {| Notification := string;
     ClusterVictory := string * string;
     VictoryData := string;
     victory_id := fst;
     victory_spread := fun v d => (fst v, d);
     MOCK_MEMBERS := [mock_member];
     MOCK_POSTS := [mock_post];
     MOCK_TRAININGS := [mock_training];
     encodeURIComponent := fun s => s;
     toLocaleDateString := iso_date;
     toLocaleDateStringFr := iso_date;
     toLocaleTimeString := hour_minute;
     toISOString := epoch_day_iso;
     localeCompare := byte_compare;
     localeCompare_total := byte_compare_total;
     localeCompare_trans := byte_compare_trans |}.

Definition empty_store : LocalStorage demo := mkStore demo None None None None.

(** The world when the module is loaded, the clock reading [t]. *)
Definition boot (t : Z) : World demo := mkWorld CACHE_init empty_store t.

Definition at_time (t : Z) (w : World demo) : World demo :=
  mkWorld (CACHE w) (localStorage w) t.

(** A gateway that is unreachable: every promise rejects. *)
Definition offline : Env demo :=
  mkEnv (fun R _ => Rejected (Error "Failed to fetch")) (fun w => w).

(** A gateway that answers every request with an [error]. *)
Definition refusing : Env demo :=
  mkEnv (fun R _ => Resolved None (Some (GatewayError "permission denied")))
        (fun w => w).

Definition message_row (n : string) : MessageRow.t :=
  MessageRow.mk ("m" ++ n) (Some "u1") ("message " ++ n)
                ("2024-05-01T10:" ++ n ++ ":00Z") None.

Definition msg (n : string) : DiscussionMessage.t :=
  mapMessage demo (message_row n).

(** A gateway whose [messages] select answers with [page] (newest first, as
    the query orders it); every other request is rejected. *)
Definition serving_messages (page : list MessageRow.t) : Env demo :=
  mkEnv (fun R (req : Request R) =>
           match req in Request R return Response R with
           | MessagesSelect _ _ => Resolved (Some page) None
           | _ => Rejected (Error "Failed to fetch")
           end)
        (fun w => w).

Definition profile_row (id name : string) : ProfileRow.t :=
  ProfileRow.mk id (Some name) None None None None None None (Some "Kinshasa")
                None (Some "2024-01-15T08:00:00Z") None None None None None.

(** A gateway whose [profiles] select answers with [rows]. *)
Definition serving_profiles (rows : list ProfileRow.t) : Env demo :=
  mkEnv (fun R (req : Request R) =>
           match req in Request R return Response R with
           | ProfilesSelectAll => Resolved (Some rows) None
           | _ => Rejected (Error "Failed to fetch")
           end)
        (fun w => w).

Definition comment_row (id created_at : string) : CommentRow.t :=
  CommentRow.mk id ("comment " ++ id) (Some created_at)
                (Some (ProfileRef.mk (Some "Awa") None)).

(** A gateway whose [comments] select answers with [rows]. *)
Definition serving_comments (rows : list CommentRow.t) : Env demo :=
  mkEnv (fun R (req : Request R) =>
           match req in Request R return Response R with
           | CommentsSelect _ => Resolved (Some rows) None
           | _ => Rejected (Error "Failed to fetch")
           end)
        (fun w => w).

Definition sample_post (id : string) (likes : Z) : Post.t :=
  Post.mk id (Some "u1") ("post " ++ id) "INFO" likes (Some 0) "1 mai" None
          [] [] "Awa" "avatar.png".

(** The chat cache of the pagination scenario: [m05 .. m10], oldest first. *)
Definition chat_cached : list DiscussionMessage.t :=
  [msg "05"; msg "06"; msg "07"; msg "08"; msg "09"; msg "10"].

Definition chat_world : World demo :=
  mkWorld (set_messages (mkEntry (Some chat_cached) 1000) CACHE_init)
          empty_store 2000.

(** The gateway page of that scenario, [m01 .. m05], as sent: newest first. *)
Definition older_page : list MessageRow.t :=
  [message_row "05"; message_row "04"; message_row "03"; message_row "02";
   message_row "01"].

(** A gateway that accepts every write and returns no rows. *)
Definition accepting : Env demo :=
  mkEnv (fun R _ => Resolved None None) (fun w => w).

(** A chat of three messages, loaded by a first cursor-less read. *)
Definition three_rows : list MessageRow.t :=
  [message_row "03"; message_row "02"; message_row "01"].

Definition short_chat_world : World demo :=
  snd (run (serving_messages three_rows)
           (getDiscussionMessages None None (boot 1000))).

(** A posts cache stamped at clock value 1000, read at 2000. *)
Definition posts_cached : list Post.t := [sample_post "a" 0; sample_post "b" 3].

Definition posts_world : World demo :=
  mkWorld (set_posts (mkEntry (Some posts_cached) 1000) CACHE_init)
          empty_store 2000.

(** The member directory, fetched at clock value 1000. *)
Definition members_world : World demo :=
  snd (run (serving_profiles [profile_row "u1" "Awa"])
           (getAllMembers (boot 1000))).

(** A comment queued for post ["p1"] (and one for ["p2"]), and the two
    comments the gateway holds for ["p1"]. *)
Definition queued_comments : list LocalComment.t :=
  [LocalComment.mk "local-1714640400000" "p1" (Some "u1") "en attente"
                   "2024-05-02T09:00:00.000Z" true;
   LocalComment.mk "local-1714644000000" "p2" (Some "u1") "autre post"
                   "2024-05-02T10:00:00.000Z" true].

Definition comments_world : World demo :=
  mkWorld CACHE_init (mkStore demo (Some queued_comments) None None None) 5000.

Definition gateway_comments : list CommentRow.t :=
  [comment_row "c1" "2024-05-01T08:30:00Z";
   comment_row "c2" "2024-05-01T10:15:00Z"].

(** A registration form without email, and a complete one. *)
Definition incomplete_registration : RegisterData.t :=
  RegisterData.mk None (Some "secret") (Some "Awa") None None
                  (Some "Goma") None None.

Definition complete_registration : RegisterData.t :=
  RegisterData.mk (Some "awa@example.org") (Some "secret") (Some "Awa") None
                  None (Some "Goma") None None.

(** A session at the comment box while the gateway is unreachable: a comment
    is written, the comments are read, another comment is written. *)
Definition comment_session : list (Operation demo) :=
  [OpAddComment demo "p1" "premier" (Some "u1");
   OpGetCommentsForPost demo "p1";
   OpAddComment demo "p2" "second" None].

(** The comments of post ["p1"] in that scenario, each id with the
    [created_at] it carries: the gateway's rows and the queued ones. *)
Definition creation_times : list (string * string) :=
  (map (fun r => (CommentRow.id r, str_or (CommentRow.created_at r) ""))
       gateway_comments
   ++ map (fun q => (LocalComment.id q, LocalComment.created_at q))
          (filter (fun q => (LocalComment.post_id q =? "p1")%string)
                  queued_comments))%list.

(** The ids of a list of (id, ISO-8601 UTC creation time), oldest first. *)
Definition chronological_ids (log : list (string * string)) : list string :=
  map fst (js_sort (fun a b => byte_compare (snd a) (snd b)) log).

(** * Properties *)

(** Run the synchronous part of a call up to its next suspension. *)
Ltac js_step :=
  cbv beta iota zeta fix
      delta [bind bindA catchA try_catch ret throw await isCacheValid
             invalidateCache read_cache write_cache read_store write_store
             Date_now cache_valid void].

Section Properties.

Variable P : Platform.

Implicit Types (w : World P) (c : Cache).

(** ** Freshness *)

Lemma entry_valid_fresh {T} (e : CacheEntry T) (t : Z) (d : list T) :
  fresh e t d -> entry_valid e t = true.
Proof.
  intros [Hd Ht]. unfold entry_valid. rewrite Hd.
  apply Z.ltb_lt. exact Ht.
Qed.

Lemma entry_valid_expired {T} (e : CacheEntry T) (t : Z) :
  expired e t -> entry_valid e t = false.
Proof.
  unfold expired, entry_valid. intros Ht.
  destruct (data e); [apply Z.ltb_ge; exact Ht | reflexivity].
Qed.

Lemma entry_valid_iff {T} (e : CacheEntry T) (t : Z) :
  entry_valid e t = true <-> exists d, fresh e t d.
Proof.
  unfold entry_valid, fresh. split.
  - destruct (data e) as [d|]; [|discriminate].
    intros H. exists d. split; [reflexivity | apply Z.ltb_lt; exact H].
  - intros [d [Hd Ht]]. rewrite Hd. apply Z.ltb_lt. exact Ht.
Qed.

Lemma getAllMembers_fresh w d :
  fresh (members (CACHE w)) (now w) d ->
  getAllMembers w = Done (Returned d) w.
Proof.
  intros H. unfold getAllMembers. js_step.
  rewrite (entry_valid_fresh H). destruct H as [-> _]. reflexivity.
Qed.

Lemma getAllMembers_expired w :
  expired (members (CACHE w)) (now w) ->
  exists k, getAllMembers w = Await ProfilesSelectAll w k.
Proof.
  intros H. unfold getAllMembers. js_step.
  rewrite (entry_valid_expired H). eexists. reflexivity.
Qed.

Lemma getPosts_fresh w d :
  fresh (posts (CACHE w)) (now w) d ->
  getPosts false w = Done (Returned d) w.
Proof.
  intros H. unfold getPosts. js_step.
  rewrite (entry_valid_fresh H). destruct H as [-> _]. reflexivity.
Qed.

Lemma getPosts_expired force w :
  expired (posts (CACHE w)) (now w) ->
  exists k, getPosts force w = Await PostsSelect w k.
Proof.
  intros H. unfold getPosts. destruct force; js_step.
  - eexists. reflexivity.
  - rewrite (entry_valid_expired H). eexists. reflexivity.
Qed.

Lemma getPosts_forced w :
  exists k, getPosts true w = Await PostsSelect w k.
Proof. unfold getPosts. js_step. eexists. reflexivity. Qed.

Lemma getTrainings_fresh w d :
  fresh (trainings (CACHE w)) (now w) d ->
  getTrainings w = Done (Returned d) w.
Proof.
  intros H. unfold getTrainings. js_step.
  rewrite (entry_valid_fresh H). destruct H as [-> _]. reflexivity.
Qed.

Lemma getTrainings_expired w :
  expired (trainings (CACHE w)) (now w) ->
  exists k, getTrainings w = Await TrainingsSelect w k.
Proof.
  intros H. unfold getTrainings. js_step.
  rewrite (entry_valid_expired H). eexists. reflexivity.
Qed.

Lemma getDiscussionMessages_fresh w d limit before :
  fresh (messages (CACHE w)) (now w) d ->
  truthy_str before = false ->
  default_limit limit <= Z.of_nat (List.length d) ->
  getDiscussionMessages limit before w
  = Done (Returned (slice_from (- default_limit limit) d)) w.
Proof.
  intros H Hc Hl. unfold getDiscussionMessages. rewrite Hc. js_step.
  rewrite (entry_valid_fresh H). destruct H as [-> _].
  replace (Z.of_nat (List.length d) >=? default_limit limit) with true.
  - reflexivity.
  - symmetry. rewrite Z.geb_leb. apply Z.leb_le. exact Hl.
Qed.

Lemma getDiscussionMessages_short w d limit before :
  data (messages (CACHE w)) = Some d ->
  truthy_str before = false ->
  Z.of_nat (List.length d) < default_limit limit ->
  exists k, getDiscussionMessages limit before w
            = Await (MessagesSelect (default_limit limit) None) w k.
Proof.
  intros Hd Hc Hl. unfold getDiscussionMessages. rewrite Hc. js_step.
  rewrite Hd.
  replace (Z.of_nat (List.length d) >=? default_limit limit) with false.
  - destruct (entry_valid _ _); eexists; reflexivity.
  - symmetry. rewrite Z.geb_leb. apply Z.leb_gt. exact Hl.
Qed.

Lemma getDiscussionMessages_expired w limit before :
  expired (messages (CACHE w)) (now w) ->
  exists k, getDiscussionMessages limit before w
            = Await (MessagesSelect (default_limit limit)
                       (if truthy_str before then before else None)) w k.
Proof.
  intros H. unfold getDiscussionMessages.
  destruct (truthy_str before); js_step.
  - eexists. reflexivity.
  - rewrite (entry_valid_expired H). eexists. reflexivity.
Qed.

Lemma getDiscussionMessages_cursor w limit before :
  truthy_str before = true ->
  exists k, getDiscussionMessages limit before w
            = Await (MessagesSelect (default_limit limit) before) w k.
Proof.
  intros Hc. unfold getDiscussionMessages. rewrite Hc. js_step.
  eexists. reflexivity.
Qed.

Lemma slice_from_all {A} (l : list A) :
  slice_from (- Z.of_nat (List.length l)) l = l.
Proof.
  unfold slice_from.
  destruct (- Z.of_nat (List.length l) <? 0) eqn:E.
  - replace (Z.max _ 0) with 0 by lia. reflexivity.
  - apply Z.ltb_ge in E.
    replace (Z.min _ _) with 0 by lia. reflexivity.
Qed.

(** C1 (as amended).  For members, posts and trainings a read without
    [forceRefresh] on a fresh entry returns exactly the cached sequence
    without suspending on the gateway.  For messages the same read (no
    cursor) answers from the cache only when the cache holds at least
    [limit] items, and then returns [data.slice(-limit)]; a fresh cache
    shorter than [limit] is re-fetched.  For every kind a read at or after
    [CACHE_DURATION] since the entry's timestamp suspends on a gateway
    request. *)
Theorem read_through_freshness w :
  (forall d, fresh (members (CACHE w)) (now w) d ->
             getAllMembers w = Done (Returned d) w) /\
  (forall d, fresh (posts (CACHE w)) (now w) d ->
             getPosts false w = Done (Returned d) w) /\
  (forall d, fresh (trainings (CACHE w)) (now w) d ->
             getTrainings w = Done (Returned d) w) /\
  (forall d limit before,
      fresh (messages (CACHE w)) (now w) d ->
      truthy_str before = false ->
      (default_limit limit <= Z.of_nat (List.length d) ->
       getDiscussionMessages limit before w
       = Done (Returned (slice_from (- default_limit limit) d)) w) /\
      (Z.of_nat (List.length d) < default_limit limit ->
       exists k, getDiscussionMessages limit before w
                 = Await (MessagesSelect (default_limit limit) None) w k)) /\
  (expired (members (CACHE w)) (now w) ->
   exists k, getAllMembers w = Await ProfilesSelectAll w k) /\
  (forall force, expired (posts (CACHE w)) (now w) ->
   exists k, getPosts force w = Await PostsSelect w k) /\
  (expired (trainings (CACHE w)) (now w) ->
   exists k, getTrainings w = Await TrainingsSelect w k) /\
  (forall limit before, expired (messages (CACHE w)) (now w) ->
   exists k, getDiscussionMessages limit before w
             = Await (MessagesSelect (default_limit limit)
                        (if truthy_str before then before else None)) w k).
Proof.
  repeat split.
  - apply getAllMembers_fresh.
  - apply getPosts_fresh.
  - apply getTrainings_fresh.
  - intros Hl. apply getDiscussionMessages_fresh; assumption.
  - intros Hl. destruct H as [Hd _].
    apply getDiscussionMessages_short with (d := d); assumption.
  - apply getAllMembers_expired.
  - intros force. apply getPosts_expired.
  - apply getTrainings_expired.
  - intros limit before. apply getDiscussionMessages_expired.
Qed.

(** ** Degrading on gateway failure *)






(** ** Optimistic update *)

Lemma replace_post_In post d :
  (exists p, In p d /\ Post.id p = Post.id post) ->
  In post (replace_post post d).
Proof.
  intros [p [Hin Hid]]. unfold replace_post. apply in_map_iff.
  exists p. split; [|exact Hin].
  rewrite Hid, String.eqb_refl. reflexivity.
Qed.

Lemma replace_post_spec post d p' :
  In p' (replace_post post d) ->
  p' = post \/ (In p' d /\ Post.id p' <> Post.id post).
Proof.
  unfold replace_post. intros H. apply in_map_iff in H.
  destruct H as [p [Hp Hin]].
  destruct (String.eqb_spec (Post.id p) (Post.id post)) as [E|E].
  - left. symmetry. exact Hp.
  - right. subst p'. split; assumption.
Qed.

Lemma patched_world_fresh post w d :
  fresh (posts (CACHE w)) (now w) d ->
  fresh (posts (CACHE (patched_world post w))) (now (patched_world post w))
        (replace_post post d).
Proof.
  intros [Hd Ht]. unfold fresh, patched_world, patch_entry. cbn.
  rewrite Hd. cbn. split; [reflexivity | exact Ht].
Qed.

(** C3.  [updatePost] replaces the matching record in the posts cache
    (leaving its timestamp alone) before it suspends on the gateway update;
    whatever the gateway answers, it then returns normally without touching
    the world again.  Hence a [getPosts(false)] issued while the update is
    in flight, the entry being fresh, returns the patched sequence without a
    gateway call, and so does one issued after the update has settled, with
    any response, while the entry is still fresh.  The patched sequence holds
    [post] in place of every cached record with its id. *)
Theorem updatePost_optimistic post w :
  (exists k,
      updatePost post w
      = Await (PostsUpdate (Post.id post) (Post.likes post) (Post.likedBy post))
              (patched_world post w) k /\
      (forall r w', k r w' = Done (Returned tt) w') /\
      (forall r t d,
          fresh (posts (CACHE w)) t d ->
          bindA (k r (mkWorld (CACHE (patched_world post w))
                              (localStorage w) t))
                (fun _ => getPosts false)
          = Done (Returned (replace_post post d))
                 (mkWorld (CACHE (patched_world post w)) (localStorage w) t))) /\
  (forall d,
      fresh (posts (CACHE w)) (now w) d ->
      getPosts false (patched_world post w)
      = Done (Returned (replace_post post d)) (patched_world post w) /\
      ((exists p, In p d /\ Post.id p = Post.id post) ->
       In post (replace_post post d)) /\
      (forall p', In p' (replace_post post d) ->
                  p' = post \/ (In p' d /\ Post.id p' <> Post.id post))).
Proof.
  split.
  - unfold updatePost. js_step. eexists. split; [reflexivity|]. split.
    + intros r w'. destruct r as [e | d [e|]]; reflexivity.
    + intros r t d Hf.
      replace (bindA _ _) with
        (getPosts false (mkWorld (CACHE (patched_world post w))
                                 (localStorage w) t))
        by (destruct r as [e | d' [e|]]; reflexivity).
      apply getPosts_fresh.
      destruct Hf as [Hd Ht]. unfold fresh, patched_world, patch_entry. cbn.
      rewrite Hd. cbn. split; [reflexivity | exact Ht].
  - intros d Hf. split; [|split].
    + apply getPosts_fresh. apply patched_world_fresh. exact Hf.
    + apply replace_post_In.
    + apply replace_post_spec.
Qed.

(** ** Merging a page of older messages *)








(** ** The comment fallback queue *)

Lemma prefix_local s : String.prefix "local-" ("local-" ++ s)%string = true.
Proof. cbn. destruct s; reflexivity. Qed.

(** C6.  [addComment] suspends on the gateway insert.  When the insert
    fails, the call does not throw: it returns after appending to
    ['pr_local_comments'] one record that carries the post id, the content,
    the author, the creation time, [is_local: true] and the id
    ["local-" + Date.now()], and after invalidating the posts cache.  That id
    starts with ["local-"], so it differs from every identifier that does
    not. *)
Theorem addComment_fallback postId content authorId w :
  exists k,
    addComment postId content authorId w
    = Await (CommentsInsert postId (or_null authorId) content) w k /\
    forall r w',
      failed r ->
      let queued := newLocalComment P postId content authorId (now w') in
      k r w' = Done (Returned tt) (queued_world postId content authorId w') /\
      pr_local_comments (localStorage (queued_world postId content authorId w'))
      = Some (list_or (pr_local_comments (localStorage w')) ++ [queued]) /\
      LocalComment.post_id queued = postId /\
      LocalComment.content queued = content /\
      LocalComment.author_id queued = authorId /\
      LocalComment.created_at queued = toISOString P (now w') /\
      LocalComment.is_local queued = true /\
      LocalComment.id queued = ("local-" ++ Z_to_string (now w'))%string /\
      String.prefix "local-" (LocalComment.id queued) = true /\
      (forall serverId, String.prefix "local-" serverId = false ->
                        LocalComment.id queued <> serverId).
Proof.
  unfold addComment. js_step. eexists. split; [reflexivity|].
  intros r w' Hf.
  split; [destruct r as [e | d [e|]]; cbn in Hf; try contradiction;
          reflexivity|].
  repeat (split; [reflexivity|]).
  split; [apply prefix_local|].
  intros serverId Hs Heq. rewrite <- Heq in Hs.
  cbn [newLocalComment LocalComment.id] in Hs.
  rewrite prefix_local in Hs. discriminate.
Qed.

(** ** Merging queued comments into a read *)

Lemma sort_insert_perm {A} (cmp : A -> A -> Z) x l :
  Permutation (x :: l) (sort_insert cmp x l).
Proof.
  induction l as [|y l IH]; cbn [sort_insert]; [reflexivity|].
  destruct (cmp x y <=? 0); [reflexivity|].
  rewrite perm_swap. apply perm_skip. exact IH.
Qed.

Lemma js_sort_perm {A} (cmp : A -> A -> Z) l :
  Permutation l (js_sort cmp l).
Proof.
  induction l as [|x l IH]; cbn [js_sort]; [reflexivity|].
  rewrite <- sort_insert_perm. apply perm_skip. exact IH.
Qed.

Lemma sort_insert_sorted x l :
  Sorted (timestamp_le P) l ->
  Sorted (timestamp_le P) (sort_insert (compare_timestamp P) x l).
Proof.
  induction 1 as [|y l Hs IH Hhd]; cbn [sort_insert].
  - repeat constructor.
  - destruct (compare_timestamp P x y <=? 0) eqn:E.
    + apply Z.leb_le in E. repeat constructor; assumption.
    + apply Z.leb_gt in E.
      assert (Hyx : timestamp_le P y x).
      { destruct (localeCompare_total P (Comment.timestamp x)
                                        (Comment.timestamp y)) as [H|H];
          [unfold compare_timestamp in E; lia | exact H]. }
      constructor; [exact IH|].
      destruct l as [|z l]; cbn [sort_insert].
      * constructor. exact Hyx.
      * destruct (compare_timestamp P x z <=? 0); constructor;
          [exact Hyx | inversion Hhd; assumption].
Qed.

Lemma js_sort_sorted l :
  StronglySorted (timestamp_le P) (js_sort (compare_timestamp P) l).
Proof.
  apply Sorted_StronglySorted.
  - intros a b c. apply localeCompare_trans.
  - induction l as [|x l IH]; cbn [js_sort]; [constructor|].
    apply sort_insert_sorted. exact IH.
Qed.

(** What the merge of [getCommentsForPost] does.  The call suspends on the
    gateway select for the post.  When the gateway answers without error, it
    returns the gateway's comments together with the comments queued locally
    for that post, rearranged so that the [timestamp] fields, which are the
    displayed hour-and-minute strings and not the creation times, are
    non-decreasing under [localeCompare].  Every queued comment of the post
    is in it, under the author name ["Moi (Local)"] and its ["local-"] id. *)
Lemma getCommentsForPost_merge postId w :
  exists k,
    getCommentsForPost postId w = Await (CommentsSelect postId) w k /\
    forall d w',
      let dbComments := map (mapDbComment P) (list_or d) in
      let localComments := local_comments_for postId (localStorage w') in
      let result := js_sort (compare_timestamp P) (dbComments ++ localComments) in
      k (Resolved d None) w' = Done (Returned result) w' /\
      Permutation (dbComments ++ localComments) result /\
      StronglySorted (timestamp_le P) result /\
      (forall q, In q (list_or (pr_local_comments (localStorage w'))) ->
                 LocalComment.post_id q = postId ->
                 In (mapLocalComment P q) result /\
                 Comment.authorName (mapLocalComment P q) = "Moi (Local)" /\
                 Comment.id (mapLocalComment P q) = LocalComment.id q) /\
      (forall cm, In cm result <-> In cm dbComments \/ In cm localComments).
Proof.
  unfold getCommentsForPost. js_step. eexists. split; [reflexivity|].
  intros d w'. split; [reflexivity|].
  split; [apply js_sort_perm|].
  split; [apply js_sort_sorted|].
  split.
  - intros q Hq Hp. split; [|split; reflexivity].
    eapply Permutation_in; [apply js_sort_perm|].
    apply in_or_app. right. unfold local_comments_for.
    apply in_map. apply filter_In. split; [exact Hq|].
    rewrite Hp. apply String.eqb_refl.
  - intros cm. rewrite <- in_app_iff. split; intros H.
    + eapply Permutation_in; [symmetry; apply js_sort_perm | exact H].
    + eapply Permutation_in; [apply js_sort_perm | exact H].
Qed.

(** ** Deleting a message *)

Lemma remove_message_absent messageId l :
  ~ In messageId (map DiscussionMessage.id l) ->
  remove_message messageId l = l.
Proof.
  unfold remove_message. induction l as [|m l IH]; intros H; [reflexivity|].
  cbn [filter].
  destruct (String.eqb_spec (DiscussionMessage.id m) messageId) as [E|E].
  - exfalso. apply H. left. exact E.
  - cbn [negb]. f_equal. apply IH. intros Hin. apply H. right. exact Hin.
Qed.

Lemma remove_message_In messageId l m :
  In m (remove_message messageId l) <->
  In m l /\ DiscussionMessage.id m <> messageId.
Proof.
  unfold remove_message. rewrite filter_In, negb_true_iff, String.eqb_neq.
  reflexivity.
Qed.

(** C10.  [deleteDiscussionMessage] suspends on the gateway delete with the
    world untouched.  When the delete fails, the call throws and the world it
    was resumed in, messages entry included, is left exactly as it was.  Only
    when the gateway answers without error is the record with that id
    filtered out of the cached sequence, the timestamp being kept; nothing
    changes when there is no cached sequence, when it is empty, or when no
    cached record carries the id. *)
Theorem deleteDiscussionMessage_atomic messageId w :
  exists k,
    deleteDiscussionMessage messageId w = Await (MessagesDelete messageId) w k /\
    (forall r w', failed r -> exists e, k r w' = Done (Threw e) w') /\
    (forall d w',
        let after :=
          with_cache
            (set_messages
               (patch_entry (remove_message messageId) (messages (CACHE w')))
               (CACHE w')) w' in
        k (Resolved d None) w' = Done (Returned tt) after /\
        timestamp (messages (CACHE after)) = timestamp (messages (CACHE w')) /\
        (forall l, data (messages (CACHE w')) = Some l ->
           data (messages (CACHE after)) = Some (remove_message messageId l) /\
           (forall m, In m (remove_message messageId l) <->
                      In m l /\ DiscussionMessage.id m <> messageId) /\
           (~ In messageId (map DiscussionMessage.id l) ->
            messages (CACHE after) = messages (CACHE w'))) /\
        (data (messages (CACHE w')) = None ->
         messages (CACHE after) = messages (CACHE w'))).
Proof.
  unfold deleteDiscussionMessage. js_step. eexists. split; [reflexivity|].
  split.
  - intros r w' Hf. destruct r as [e | d [e|]]; cbn in Hf; try contradiction;
      eexists; reflexivity.
  - intros d w'. split; [reflexivity|].
    cbn [CACHE with_cache messages set_messages]. unfold patch_entry.
    split; [destruct (data (messages (CACHE w'))); reflexivity|].
    split.
    + intros l Hl. rewrite Hl. cbn [data]. split; [reflexivity|].
      split; [intros m; apply remove_message_In|].
      intros Habs. rewrite remove_message_absent by exact Habs.
      destruct (messages (CACHE w')) as [dd ts]. cbn in Hl. subst dd.
      reflexivity.
    + intros Hn. rewrite Hn. reflexivity.
Qed.

(** ** The cache invariant *)

Lemma preserves_bindA {A B} (I : World P -> Prop) (t : Async P A)
      (f : A -> M P B) :
  preserves I t -> (forall a, keeps I (f a)) -> preserves I (bindA t f).
Proof.
  intros Ht Hf. induction t as [[a|e] w0 | R req w0 k IH]; cbn in *.
  - apply Hf. exact Ht.
  - exact Ht.
  - destruct Ht as [H0 Hk]. split; [exact H0|].
    intros r w' Hw'. apply IH. apply Hk. exact Hw'.
Qed.

Lemma preserves_catchA {A} (I : World P -> Prop) (t : Async P A)
      (h : Exn -> M P A) :
  preserves I t -> (forall e, keeps I (h e)) -> preserves I (catchA t h).
Proof.
  intros Ht Hh. induction t as [[a|e] w0 | R req w0 k IH]; cbn in *.
  - exact Ht.
  - apply Hh. exact Ht.
  - destruct Ht as [H0 Hk]. split; [exact H0|].
    intros r w' Hw'. apply IH. apply Hk. exact Hw'.
Qed.

Section Keeps.

Variable I : World P -> Prop.

Lemma keeps_bind {A B} (m : M P A) (f : A -> M P B) :
  keeps I m -> (forall a, keeps I (f a)) -> keeps I (bind m f).
Proof.
  intros Hm Hf w0 Hw. apply preserves_bindA; [apply Hm; exact Hw | exact Hf].
Qed.

Lemma keeps_try_catch {A} (m : M P A) (h : Exn -> M P A) :
  keeps I m -> (forall e, keeps I (h e)) -> keeps I (try_catch m h).
Proof.
  intros Hm Hh w0 Hw. apply preserves_catchA; [apply Hm; exact Hw | exact Hh].
Qed.

Lemma keeps_ret {A} (a : A) : keeps I (ret (P:=P) a).
Proof. intros w0 Hw. exact Hw. Qed.

Lemma keeps_throw {A} (e : Exn) : keeps I (throw (P:=P) (A:=A) e).
Proof. intros w0 Hw. exact Hw. Qed.

Lemma keeps_await {R} (req : Request R) : keeps I (await (P:=P) req).
Proof.
  intros w0 Hw. cbn. split; [exact Hw|].
  intros r w' Hw'. destruct r; exact Hw'.
Qed.

Lemma keeps_Date_now : keeps I (Date_now (P:=P)).
Proof. intros w0 Hw. exact Hw. Qed.

Lemma keeps_read_cache : keeps I (read_cache (P:=P)).
Proof. intros w0 Hw. exact Hw. Qed.

Lemma keeps_read_store : keeps I (read_store (P:=P)).
Proof. intros w0 Hw. exact Hw. Qed.

Lemma keeps_isCacheValid key : keeps I (isCacheValid (P:=P) key).
Proof. intros w0 Hw. exact Hw. Qed.

End Keeps.

Lemma keeps_write_store (f : LocalStorage P -> LocalStorage P) :
  keeps (@world_inv P) (write_store f).
Proof. intros w0 Hw. exact Hw. Qed.

Lemma keeps_write_cache (f : Cache -> Cache) :
  (forall c, cache_inv c -> cache_inv (f c)) ->
  keeps (@world_inv P) (write_cache f).
Proof. intros Hf w0 Hw. apply Hf. exact Hw. Qed.

Lemma cache_inv_invalidate key c :
  cache_inv c -> cache_inv (cache_invalidate key c).
Proof.
  intros (Hm & Hp & Ht & Hg).
  destruct key; repeat split; cbn; try assumption; intros _; reflexivity.
Qed.

Lemma entry_inv_some {T} (d : list T) (t : Z) : entry_inv (mkEntry (Some d) t).
Proof. intros H. discriminate H. Qed.

Lemma entry_inv_patch {T} (f : list T -> list T) (e : CacheEntry T) :
  entry_inv e -> entry_inv (patch_entry f e).
Proof.
  unfold patch_entry. destruct (data e) eqn:E; intros H; [|exact H].
  apply entry_inv_some.
Qed.

Lemma keeps_invalidateCache key :
  keeps (@world_inv P) (invalidateCache key).
Proof. apply keeps_write_cache. apply cache_inv_invalidate. Qed.

(** One step of a proof that a call keeps the cache invariant. *)
Ltac keeps_cache :=
  match goal with
  | H : cache_inv _ |- cache_inv _ =>
    destruct H as (? & ? & ? & ?);
    repeat split; cbn;
    first [ assumption | apply entry_inv_some
          | apply entry_inv_patch; assumption ]
  end.

Ltac keeps_step :=
  lazymatch goal with
  | |- keeps _ (ret _) => apply keeps_ret
  | |- keeps _ (throw _) => apply keeps_throw
  | |- keeps _ (await _) => apply keeps_await
  | |- keeps _ (@Date_now _) => apply keeps_Date_now
  | |- keeps _ (@read_cache _) => apply keeps_read_cache
  | |- keeps _ (@read_store _) => apply keeps_read_store
  | |- keeps _ (isCacheValid _) => apply keeps_isCacheValid
  | |- keeps _ (write_store _) => apply keeps_write_store
  | |- keeps _ (invalidateCache _) => apply keeps_invalidateCache
  | |- keeps _ (write_cache _) =>
    apply keeps_write_cache; intros ? ?; keeps_cache
  | |- keeps _ (bind _ _) => apply keeps_bind; [|intros ?]
  | |- keeps _ (try_catch _ _) => apply keeps_try_catch; [|intros ?]
  | |- keeps _ (match ?x with _ => _ end) => destruct x
  | |- keeps _ (let _ := _ in _) => cbv zeta
  end.

Ltac keeps_all := repeat keeps_step.

Lemma keeps_getCurrentUser : keeps (@world_inv P) (@getCurrentUser P).
Proof. unfold getCurrentUser. keeps_all. Qed.

Ltac keeps_more :=
  repeat first
    [ lazymatch goal with
      | |- keeps _ (@getCurrentUser _) => apply keeps_getCurrentUser
      end
    | keeps_step ].

Lemma entry_inv_iff {T} (e : CacheEntry T) :
  entry_inv e <-> (timestamp e <> 0 -> data e <> None).
Proof.
  unfold entry_inv. split.
  - intros H Ht Hd. apply Ht. apply H. exact Hd.
  - intros H Hd. destruct (Z.eq_dec (timestamp e) 0) as [E|E]; [exact E|].
    exfalso. apply (H E). exact Hd.
Qed.

Lemma cache_inv_init : cache_inv CACHE_init.
Proof. repeat split; intros _; reflexivity. Qed.

(** C9.  Every operation of the service keeps, for each of the four cache
    entries, [data == null => timestamp == 0]: started in a world where it
    holds, an operation leaves it holding at every suspension and at its
    end, whatever the gateway answers and whatever (invariant-keeping) calls
    run while it is suspended. *)
Theorem cache_invariant_preserved (op : Operation P) w :
  world_inv w -> preserves (@world_inv P) (perform op w).
Proof.
  revert w. change (keeps (@world_inv P) (perform op)).
  destruct op; cbn [perform]; unfold void.
  - keeps_more.
  - unfold login. keeps_more.
  - unfold logout. keeps_more.
  - unfold register. keeps_more.
  - unfold updateUserLocation. keeps_more.
  - unfold updateUser. keeps_more.
  - unfold getAllMembers. keeps_more.
  - unfold getPosts. keeps_more.
  - unfold addPost. keeps_more.
  - unfold updatePost. keeps_more.
  - unfold addComment. keeps_more.
  - unfold getCommentsForPost. keeps_more.
  - unfold getTrainings. keeps_more.
  - unfold addTraining. keeps_more.
  - unfold markTrainingCompleted. keeps_more.
  - unfold getCachedMessages. keeps_more.
  - unfold syncMessageCache. keeps_more.
  - unfold getDiscussionMessages. keeps_more.
  - unfold addDiscussionMessage. keeps_more.
  - unfold deleteDiscussionMessage. keeps_more.
  - unfold getNotifications. keeps_more.
  - unfold addNotification. keeps_more.
  - unfold getStrategicGoals. keeps_more.
  - unfold addStrategicGoal. keeps_more.
  - unfold toggleStrategicGoal. keeps_more.
  - unfold deleteStrategicGoal. keeps_more.
  - unfold getVictories. keeps_more.
  - unfold addVictory. keeps_more.
  - unfold updateVictory. keeps_more.
  - unfold deleteVictory. keeps_more.
Qed.

(** ** One freshness window for all kinds *)

Lemma cache_valid_window key c t :
  cache_valid key c t
  = key_has_data key c && (t - key_timestamp key c <? 5 * 60 * 1000).
Proof.
  destruct key; cbn [cache_valid key_has_data key_timestamp];
    unfold entry_valid, has_data;
    match goal with |- context [data ?e] => destruct (data e) end;
    reflexivity.
Qed.

(** C8 (as amended).  The four kinds share one freshness window, the
    constant [CACHE_DURATION] of five minutes: an entry of any kind is valid
    exactly when its data is non-null and less than five minutes have passed
    since its timestamp.  So [getAllMembers] is answered from the cache less
    than five minutes after the fetch that stamped the entry, and suspends
    on the gateway at or after five minutes. *)
Theorem shared_freshness_window w :
  CACHE_DURATION = 300000 /\
  (forall key t,
      cache_valid key (CACHE w) t
      = key_has_data key (CACHE w)
        && (t - key_timestamp key (CACHE w) <? 5 * 60 * 1000)) /\
  (forall d,
      data (members (CACHE w)) = Some d ->
      now w - timestamp (members (CACHE w)) < 5 * 60 * 1000 ->
      getAllMembers w = Done (Returned d) w) /\
  (5 * 60 * 1000 <= now w - timestamp (members (CACHE w)) ->
   exists k, getAllMembers w = Await ProfilesSelectAll w k).
Proof.
  split; [reflexivity|]. split; [intros key t; apply cache_valid_window|].
  split.
  - intros d Hd Ht. apply getAllMembers_fresh. split; assumption.
  - intros Ht. apply getAllMembers_expired. exact Ht.
Qed.

End Properties.

(** * The scenarios, run *)

(** C1, counterexample.  After a cursor-less read has loaded a chat of three
    messages, the messages entry is fresh and non-null; the same read,
    repeated at once, does not return the cached sequence from the cache: it
    goes to the gateway again. *)
Lemma fresh_chat_is_refetched :
  data (messages (CACHE short_chat_world))
  = Some [msg "01"; msg "02"; msg "03"] /\
  now short_chat_world - timestamp (messages (CACHE short_chat_world))
  < CACHE_DURATION /\
  gateway_calls (serving_messages three_rows)
                (getDiscussionMessages None None short_chat_world) = 1%nat /\
  getDiscussionMessages None None short_chat_world
  <> Done (Returned [msg "01"; msg "02"; msg "03"]) short_chat_world.
Proof.
  split; [vm_compute; reflexivity|].
  split; [vm_compute; reflexivity|].
  split; [vm_compute; reflexivity|].
  intros H.
  apply (f_equal (gateway_calls (serving_messages three_rows))) in H.
  vm_compute in H. discriminate H.
Qed.

Lemma read_through_freshness_witness :
  (fresh (posts (CACHE posts_world)) (now posts_world) posts_cached /\
   getPosts false posts_world = Done (Returned posts_cached) posts_world) /\
  (fresh (messages (CACHE chat_world)) (now chat_world) chat_cached /\
   getDiscussionMessages (Some 5) None chat_world
   = Done (Returned [msg "06"; msg "07"; msg "08"; msg "09"; msg "10"])
          chat_world).
Proof.
  assert (Hp : fresh (posts (CACHE posts_world)) (now posts_world) posts_cached)
    by (split; [reflexivity | vm_compute; reflexivity]).
  assert (Hm : fresh (messages (CACHE chat_world)) (now chat_world) chat_cached)
    by (split; [reflexivity | vm_compute; reflexivity]).
  split; split; try assumption.
  - apply (proj1 (proj2 (read_through_freshness posts_world))). exact Hp.
  - destruct (read_through_freshness chat_world) as (_ & _ & _ & H & _).
    destruct (H chat_cached (Some 5) None Hm eq_refl) as [Hfast _].
    apply Hfast. vm_compute. discriminate.
Defined.


Lemma updatePost_optimistic_witness :
  fresh (posts (CACHE posts_world)) (now posts_world) posts_cached /\
  run offline (updatePost (sample_post "a" 1) posts_world)
  = (Returned tt, patched_world (sample_post "a" 1) posts_world) /\
  getPosts false (patched_world (sample_post "a" 1) posts_world)
  = Done (Returned [sample_post "a" 1; sample_post "b" 3])
         (patched_world (sample_post "a" 1) posts_world).
Proof.
  assert (Hp : fresh (posts (CACHE posts_world)) (now posts_world) posts_cached)
    by (split; [reflexivity | vm_compute; reflexivity]).
  destruct (updatePost_optimistic (sample_post "a" 1) posts_world)
    as [[k [Hk [Hr _]]] Hread].
  split; [exact Hp|]. split.
  - rewrite Hk. cbn [run]. rewrite Hr. reflexivity.
  - exact (proj1 (Hread posts_cached Hp)).
Defined.


(** C5 (as amended).  The chat cache holds [m05 .. m10], oldest first; the
    gateway answers [getDiscussionMessages(5, m05.timestamp)] with the page
    [m01 .. m05], [m05] being a boundary duplicate.  The merged cache is
    [m01 .. m10], with [m05] once and the timestamp kept, and the value
    returned is the whole fetched page [m01 .. m05]: five items. *)
Theorem pagination_scenario :
  let call :=
    getDiscussionMessages (Some 5) (Some "2024-05-01T10:05:00Z") chat_world in
  fst (run (serving_messages older_page) call)
  = Returned [msg "01"; msg "02"; msg "03"; msg "04"; msg "05"] /\
  messages (CACHE (snd (run (serving_messages older_page) call)))
  = mkEntry (Some [msg "01"; msg "02"; msg "03"; msg "04"; msg "05";
                   msg "06"; msg "07"; msg "08"; msg "09"; msg "10"]) 1000 /\
  gateway_calls (serving_messages older_page) call = 1%nat.
Proof. repeat split; vm_compute; reflexivity. Qed.

(** C5, counterexample.  In that scenario the value returned is not the four
    new records [m01 .. m04]. *)
Lemma pagination_returns_whole_page :
  fst (run (serving_messages older_page)
           (getDiscussionMessages (Some 5) (Some "2024-05-01T10:05:00Z")
                                  chat_world))
  <> Returned [msg "01"; msg "02"; msg "03"; msg "04"].
Proof.
  intros H.
  apply (f_equal (fun o => match o with
                           | Returned l => List.length l
                           | Threw _ => O
                           end)) in H.
  vm_compute in H. discriminate H.
Qed.

Lemma addComment_fallback_witness :
  failed (respond offline (CommentsInsert "p1" (Some "u1") "hello")) /\
  run offline (addComment "p1" "hello" (Some "u1") (boot 5000))
  = (Returned tt,
     mkWorld CACHE_init
       (mkStore demo
          (Some [LocalComment.mk "local-5000" "p1" (Some "u1") "hello"
                                 "1970-01-01T00:00:05.000Z" true])
          None None None)
       5000).
Proof.
  split; [exact I|].
  destruct (addComment_fallback "p1" "hello" (Some "u1") (boot 5000))
    as [k [Hk Hf]].
  rewrite Hk. cbn [run].
  destruct (Hf (respond offline (CommentsInsert "p1" (or_null (Some "u1")) "hello"))
               (meanwhile offline (boot 5000)) I) as [H1 _].
  rewrite H1. reflexivity.
Defined.

Lemma getCommentsForPost_merge_witness :
  run (serving_comments gateway_comments)
      (getCommentsForPost "p1" comments_world)
  = (Returned
       [Comment.mk "c1" "Awa" "comment c1" "08:30";
        Comment.mk "local-1714640400000" "Moi (Local)" "en attente" "09:00";
        Comment.mk "c2" "Awa" "comment c2" "10:15"],
     comments_world).
Proof.
  destruct (getCommentsForPost_merge "p1" comments_world) as [k [Hk H]].
  rewrite Hk. cbn [run].
  destruct (H (Some gateway_comments) (meanwhile (serving_comments gateway_comments)
                                                 comments_world)) as [H1 _].
  cbn [respond serving_comments]. rewrite H1. reflexivity.
Defined.

(** C7 (the code departs from the claim).  The gateway holds two comments
    for post ["p1"], created on 2024-05-01 at 08:30 and at 10:15; one comment
    is queued locally for it, created on 2024-05-02 at 09:00.  By creation
    time the order is [c1], [c2], then the queued comment.  The code sorts
    the merged list on the displayed hour and minute, the date dropped, and
    returns [c1], the queued comment, [c2]: the comment written a day later
    stands before [c2].  The result is not in the order of the timestamps. *)
Theorem comments_sorted_by_time_of_day :
  fst (run (serving_comments gateway_comments)
           (getCommentsForPost "p1" comments_world))
  = Returned
      [Comment.mk "c1" "Awa" "comment c1" "08:30";
       Comment.mk "local-1714640400000" "Moi (Local)" "en attente" "09:00";
       Comment.mk "c2" "Awa" "comment c2" "10:15"] /\
  creation_times
  = [("c1", "2024-05-01T08:30:00Z"); ("c2", "2024-05-01T10:15:00Z");
     ("local-1714640400000", "2024-05-02T09:00:00.000Z")] /\
  chronological_ids creation_times = ["c1"; "c2"; "local-1714640400000"] /\
  match fst (run (serving_comments gateway_comments)
                 (getCommentsForPost "p1" comments_world)) with
  | Returned l => map Comment.id l <> chronological_ids creation_times
  | Threw _ => False
  end.
Proof.
  split; [vm_compute; reflexivity|].
  split; [vm_compute; reflexivity|].
  split; [vm_compute; reflexivity|].
  vm_compute. intros H. discriminate H.
Qed.

(** C8, counterexample.  Ten minutes after the fetch that filled the members
    entry, hence well within thirty minutes, [getAllMembers] is not served
    from the cache: it goes to the gateway. *)
Lemma members_refetched_within_30_minutes :
  data (members (CACHE members_world))
  = Some [mapProfileToMember demo (profile_row "u1" "Awa")] /\
  timestamp (members (CACHE members_world)) = 1000 /\
  (1000 + 10 * 60 * 1000) - timestamp (members (CACHE members_world))
  < 30 * 60 * 1000 /\
  gateway_calls (serving_profiles [profile_row "u1" "Awa"])
    (getAllMembers (at_time (1000 + 10 * 60 * 1000) members_world)) = 1%nat /\
  exists k,
    getAllMembers (at_time (1000 + 10 * 60 * 1000) members_world)
    = Await ProfilesSelectAll (at_time (1000 + 10 * 60 * 1000) members_world) k.
Proof.
  split; [vm_compute; reflexivity|].
  split; [vm_compute; reflexivity|].
  split; [vm_compute; reflexivity|].
  split; [vm_compute; reflexivity|].
  apply getAllMembers_expired. vm_compute. discriminate.
Qed.

Lemma shared_freshness_window_witness :
  data (members (CACHE (at_time (1000 + 4 * 60 * 1000) members_world)))
  = Some [mapProfileToMember demo (profile_row "u1" "Awa")] /\
  now (at_time (1000 + 4 * 60 * 1000) members_world)
  - timestamp (members (CACHE (at_time (1000 + 4 * 60 * 1000) members_world)))
  < 5 * 60 * 1000 /\
  getAllMembers (at_time (1000 + 4 * 60 * 1000) members_world)
  = Done (Returned [mapProfileToMember demo (profile_row "u1" "Awa")])
         (at_time (1000 + 4 * 60 * 1000) members_world).
Proof.
  assert (Hd : data (members (CACHE (at_time (1000 + 4 * 60 * 1000)
                                            members_world)))
               = Some [mapProfileToMember demo (profile_row "u1" "Awa")])
    by (vm_compute; reflexivity).
  assert (Ht : now (at_time (1000 + 4 * 60 * 1000) members_world)
               - timestamp (members (CACHE (at_time (1000 + 4 * 60 * 1000)
                                                    members_world)))
               < 5 * 60 * 1000)
    by (vm_compute; reflexivity).
  split; [exact Hd|]. split; [exact Ht|].
  destruct (shared_freshness_window
              (at_time (1000 + 4 * 60 * 1000) members_world))
    as (_ & _ & H & _).
  apply H; assumption.
Defined.

Lemma cache_invariant_preserved_witness :
  world_inv chat_world /\
  preserves (@world_inv demo)
            (perform (OpDeleteDiscussionMessage demo "m05") chat_world).
Proof.
  assert (Hw : world_inv chat_world).
  { repeat split; intros H; try reflexivity; discriminate H. }
  split; [exact Hw|].
  apply cache_invariant_preserved. exact Hw.
Defined.

Lemma deleteDiscussionMessage_atomic_witness :
  failed (respond refusing (MessagesDelete "m05")) /\
  (exists e, run refusing (deleteDiscussionMessage "m05" chat_world)
             = (Threw e, chat_world)) /\
  data (messages (CACHE (snd (run accepting
                                  (deleteDiscussionMessage "m05" chat_world)))))
  = Some [msg "06"; msg "07"; msg "08"; msg "09"; msg "10"].
Proof.
  destruct (deleteDiscussionMessage_atomic "m05" chat_world)
    as [k [Hk [Hfail Hok]]].
  split; [exact I|]. split.
  - destruct (Hfail (respond refusing (MessagesDelete "m05"))
                    (meanwhile refusing chat_world) I) as [e He].
    exists e. rewrite Hk. cbn [run]. rewrite He. reflexivity.
  - rewrite Hk. cbn [run].
    destruct (Hok None (meanwhile accepting chat_world)) as [H1 _].
    cbn [respond accepting]. rewrite H1. vm_compute. reflexivity.
Defined.

(** * Further properties of the service *)

Section MoreProperties.

Variable P : Platform.

Implicit Types (w : World P).

(** Split a suspended call on every response and on every value it tests. *)
Ltac tree_cases :=
  repeat first
    [ progress js_step
    | progress cbn [never_throws calls_at_most]
    | match goal with
      | |- forall _, _ => intro
      | |- True => exact I
      | |- context [match ?x with _ => _ end] =>
        lazymatch type of x with
        | Async _ _ => fail
        | _ => destruct x
        end
      end ].

(** X1.  [logout] never throws and always empties the cache: whether the
    sign-out resolves, resolves with an error or rejects, the call returns
    with all four entries reset to [{ data: null, timestamp: 0 }] and
    [localStorage] as it was. *)
Theorem logout_clears_cache w :
  exists k,
    logout w = Await AuthSignOut w k /\
    forall r w',
      k r w' = Done (Returned tt) (mkWorld CACHE_init (localStorage w') (now w')).
Proof.
  unfold logout. js_step. eexists. split; [reflexivity|].
  intros r w'. destruct r as [e | d err]; reflexivity.
Qed.

(** X2.  The calls that absorb gateway failures: [getCurrentUser], [logout],
    [getAllMembers], [getPosts], [updatePost], [addComment],
    [getCommentsForPost], [getTrainings], [markTrainingCompleted] and
    [getDiscussionMessages] end by returning on every path; no gateway
    response, error or rejection makes them throw. *)
Theorem reads_and_soft_writes_never_throw w :
  never_throws (@getCurrentUser P w) /\
  never_throws (@logout P w) /\
  never_throws (@getAllMembers P w) /\
  (forall force, never_throws (getPosts force w)) /\
  (forall post, never_throws (updatePost post w)) /\
  (forall postId content authorId,
      never_throws (addComment postId content authorId w)) /\
  (forall postId, never_throws (getCommentsForPost postId w)) /\
  never_throws (@getTrainings P w) /\
  (forall userId trainingId,
      never_throws (markTrainingCompleted userId trainingId w)) /\
  (forall limit before, never_throws (getDiscussionMessages limit before w)).
Proof.
  repeat split; intros.
  - unfold getCurrentUser. tree_cases.
  - unfold logout. tree_cases.
  - unfold getAllMembers. tree_cases.
  - unfold getPosts. tree_cases.
  - unfold updatePost. tree_cases.
  - unfold addComment. tree_cases.
  - unfold getCommentsForPost. tree_cases.
  - unfold getTrainings. tree_cases.
  - unfold markTrainingCompleted. tree_cases.
  - unfold getDiscussionMessages. tree_cases.
Qed.

(** X3.  No operation retries or loops on the gateway: one call of
    [register] suspends at most four times, [login] and [updateUser] at most
    three, [getCurrentUser] and [markTrainingCompleted] at most two, every
    other gateway-backed operation at most once, and the cache and
    [localStorage] helpers never. *)
Theorem gateway_calls_bounded (op : Operation P) w :
  calls_at_most (max_calls op) (perform op w).
Proof.
  destruct op; cbn [perform max_calls]; unfold void.
  - unfold getCurrentUser. tree_cases.
  - unfold login, getCurrentUser. tree_cases.
  - unfold logout. tree_cases.
  - unfold register, getCurrentUser. tree_cases.
  - unfold updateUserLocation. tree_cases.
  - unfold updateUser, getCurrentUser. tree_cases.
  - unfold getAllMembers. tree_cases.
  - unfold getPosts. tree_cases.
  - unfold addPost. tree_cases.
  - unfold updatePost. tree_cases.
  - unfold addComment. tree_cases.
  - unfold getCommentsForPost. tree_cases.
  - unfold getTrainings. tree_cases.
  - unfold addTraining. tree_cases.
  - unfold markTrainingCompleted. tree_cases.
  - unfold getCachedMessages. tree_cases.
  - unfold syncMessageCache. tree_cases.
  - unfold getDiscussionMessages. tree_cases.
  - unfold addDiscussionMessage. tree_cases.
  - unfold deleteDiscussionMessage. tree_cases.
  - unfold getNotifications. tree_cases.
  - unfold addNotification. tree_cases.
  - unfold getStrategicGoals. tree_cases.
  - unfold addStrategicGoal. tree_cases.
  - unfold toggleStrategicGoal. tree_cases.
  - unfold deleteStrategicGoal. tree_cases.
  - unfold getVictories. tree_cases.
  - unfold addVictory. tree_cases.
  - unfold updateVictory. tree_cases.
  - unfold deleteVictory. tree_cases.
Qed.

(** ** Fetching and caching *)

Lemma fresh_at_stamp {T} (d : list T) (t0 t : Z) :
  t - t0 < CACHE_DURATION -> fresh (mkEntry (Some d) t0) t d.
Proof. intros H. split; [reflexivity | exact H]. Qed.


Lemma getPosts_null_entry w :
  posts (CACHE w) = mkEntry None 0 ->
  exists k, getPosts false w = Await PostsSelect w k.
Proof.
  intros H. unfold getPosts. js_step. unfold entry_valid. rewrite H. cbn.
  eexists. reflexivity.
Qed.


(** ** Writes that invalidate *)

(** X5.  [addPost] and [addTraining] surface a gateway error to the caller
    and leave the world alone: an [error] in the response is rethrown as an
    [Error] whose message is the French prefix followed by the gateway's
    message, a rejected promise is rethrown as it is.  On success they reset
    their entry to [{ null, 0 }] and touch nothing else, so that the next
    [getPosts] goes to the gateway even if the entry was fresh. *)
Theorem creation_invalidates post training w :
  (exists k,
      addPost post w
      = Await (PostsInsert (Post.authorId post) (Post.content post)
                           (Post.type post) (Post.image post)) w k /\
      (forall d e w',
          k (Resolved d (Some e)) w'
          = Done (Threw (Error ("Impossible de publier le post. "
                                  ++ message e)%string)) w') /\
      (forall e w', k (Rejected e) w' = Done (Threw e) w') /\
      (forall d w',
          let after := with_cache (set_posts (mkEntry None 0) (CACHE w')) w' in
          k (Resolved d None) w' = Done (Returned tt) after /\
          exists k', getPosts false after = Await PostsSelect after k')) /\
  (exists k,
      addTraining training w = Await (TrainingsInsert training) w k /\
      (forall d e w',
          k (Resolved d (Some e)) w'
          = Done (Threw (Error ("Impossible d'ajouter la formation. "
                                  ++ message e)%string)) w') /\
      (forall e w', k (Rejected e) w' = Done (Threw e) w') /\
      (forall d w',
          k (Resolved d None) w'
          = Done (Returned tt)
                 (with_cache (set_trainings (mkEntry None 0) (CACHE w')) w'))).
Proof.
  split.
  - unfold addPost. js_step. eexists. split; [reflexivity|].
    split; [reflexivity|]. split; [reflexivity|].
    intros d w'. split; [reflexivity|].
    apply getPosts_null_entry. reflexivity.
  - unfold addTraining. js_step. eexists. split; [reflexivity|].
    split; [reflexivity|]. split; [reflexivity|]. reflexivity.
Qed.

(** ** Comments *)

(** X6.  [addComment] always returns and always leaves the posts entry
    reset to [{ null, 0 }], so that the next [getPosts] goes to the gateway;
    when the gateway accepts the insert, [localStorage] is left untouched
    (nothing is queued). *)
Theorem addComment_always_invalidates postId content authorId w :
  exists k,
    addComment postId content authorId w
    = Await (CommentsInsert postId (or_null authorId) content) w k /\
    (forall r w',
        exists w'',
          k r w' = Done (Returned tt) w'' /\
          posts (CACHE w'') = mkEntry None 0 /\
          exists k', getPosts false w'' = Await PostsSelect w'' k') /\
    (forall d w',
        k (Resolved d None) w'
        = Done (Returned tt)
               (with_cache (set_posts (mkEntry None 0) (CACHE w')) w')).
Proof.
  unfold addComment. js_step. eexists. split; [reflexivity|]. split.
  - intros r w'. destruct r as [e | d [e|]]; eexists;
      (split; [reflexivity|]); (split; [reflexivity|]);
      apply getPosts_null_entry; reflexivity.
  - reflexivity.
Qed.

(** X7.  A comment that [addComment] had to queue is not lost to the reader:
    in the world the fallback leaves, [getCommentsForPost] for the same post
    returns it.  When the gateway fails again, the call still returns (it
    never throws) and gives the queued comments of that post in queue order,
    the new one last; when the gateway answers, the new one is in the merged
    result. *)
Theorem queued_comment_is_read_back postId content authorId w :
  let queued := newLocalComment P postId content authorId (now w) in
  let wq := queued_world postId content authorId w in
  exists k,
    getCommentsForPost postId wq = Await (CommentsSelect postId) wq k /\
    (forall r, failed r ->
       k r wq
       = Done (Returned (local_comments_for postId (localStorage w)
                           ++ [mapLocalComment P queued])%list) wq) /\
    (forall d, exists l,
       k (Resolved d None) wq = Done (Returned l) wq /\
       In (mapLocalComment P queued) l).
Proof.
  unfold getCommentsForPost. js_step. eexists. split; [reflexivity|].
  assert (Hq : local_comments_for postId
                 (localStorage (queued_world postId content authorId w))
               = (local_comments_for postId (localStorage w)
                    ++ [mapLocalComment P
                          (newLocalComment P postId content authorId (now w))])%list).
  { unfold queued_world, local_comments_for. cbn.
    rewrite filter_app, map_app. cbn. rewrite String.eqb_refl. reflexivity. }
  split.
  - intros r Hf. destruct r as [e | d [e|]]; cbn in Hf; try contradiction;
      rewrite <- Hq; reflexivity.
  - intros d. eexists. split; [reflexivity|].
    eapply Permutation_in; [apply js_sort_perm|].
    apply in_or_app. right. rewrite Hq. apply in_or_app. right. left.
    reflexivity.
Qed.

(** ** The discussion *)

Lemma map_mapMessage_ids rows :
  map DiscussionMessage.id (map (mapMessage P) (rev rows))
  = rev (map MessageRow.id rows).
Proof. rewrite map_map, <- map_rev. reflexivity. Qed.

(** X8.  Without a cursor, a [getDiscussionMessages] that goes to the
    gateway asks for the newest [limit] rows and, when rows come back,
    replaces the messages entry wholesale: whatever was cached is dropped,
    the entry becomes the page reversed to oldest-first, stamped with the
    clock of that moment, and that page is returned.  A response with neither
    rows nor error returns the empty list and leaves the cache alone. *)
Theorem initial_load_replaces_cache limit before w :
  truthy_str before = false ->
  (exists d, getDiscussionMessages limit before w = Done (Returned d) w) \/
  exists k,
    getDiscussionMessages limit before w
    = Await (MessagesSelect (default_limit limit) None) w k /\
    (forall w', k (Resolved None None) w' = Done (Returned []) w') /\
    forall rows w',
      let page := map (mapMessage P) (rev rows) in
      k (Resolved (Some rows) None) w'
      = Done (Returned page)
             (with_cache (set_messages (mkEntry (Some page) (now w')) (CACHE w'))
                         w') /\
      map DiscussionMessage.id page = rev (map MessageRow.id rows).
Proof.
  intros Hc. unfold getDiscussionMessages. rewrite Hc. js_step.
  destruct (entry_valid (messages (CACHE w)) (now w));
    [destruct (data (messages (CACHE w))) as [d|];
     [destruct (Z.of_nat (List.length d) >=? default_limit limit);
      [left; eexists; reflexivity|] |] |];
    (right; eexists; split; [reflexivity|]; split; [reflexivity|];
     intros rows w'; split; [reflexivity | apply map_mapMessage_ids]).
Qed.


(** X10.  [addDiscussionMessage] surfaces a gateway error as
    [Error(error.message)] and leaves the world alone.  On success the new
    message goes to the end of the cached sequence, whose timestamp is kept;
    when nothing is cached, a one-message entry stamped with the clock is
    created.  Either way the message is returned and [getCachedMessages]
    then ends with it. *)
Theorem addDiscussionMessage_appends authorId content w :
  exists k,
    addDiscussionMessage authorId content w
    = Await (MessagesInsert authorId content) w k /\
    (forall d e w',
        k (Resolved d (Some e)) w' = Done (Threw (Error (message e))) w') /\
    (forall e w', k (Rejected e) w' = Done (Threw e) w') /\
    forall row w',
      let formatted := mapMessage P row in
      let after :=
        with_cache
          (set_messages
             (match data (messages (CACHE w')) with
              | Some cached =>
                mkEntry (Some (cached ++ [formatted]))
                        (timestamp (messages (CACHE w')))
              | None => mkEntry (Some [formatted]) (now w')
              end) (CACHE w')) w' in
      k (Resolved (Some row) None) w' = Done (Returned formatted) after /\
      getCachedMessages after
      = Done (Returned (list_or (data (messages (CACHE w'))) ++ [formatted]))
             after.
Proof.
  unfold addDiscussionMessage. js_step. eexists. split; [reflexivity|].
  split; [reflexivity|]. split; [reflexivity|].
  intros row w'.
  destruct (data (messages (CACHE w'))) as [cached|]; split; reflexivity.
Qed.

Lemma slice_from_last {A} (n : Z) (l : list A) :
  0 < n <= Z.of_nat (List.length l) ->
  slice_from (- n) l = skipn (List.length l - Z.to_nat n) l.
Proof.
  intros [Hp Hl]. unfold slice_from.
  replace (- n <? 0) with true by (symmetry; apply Z.ltb_lt; lia).
  f_equal. lia.
Qed.

(** X11.  What the cache fast path of [getDiscussionMessages] returns: for a
    positive [limit] it is exactly the last [limit] cached messages, the
    older ones being left out; for [limit = 0] it is the whole cached
    sequence, since [slice(-0)] is [slice(0)]. *)
Theorem cached_page_is_the_tail limit before w d :
  fresh (messages (CACHE w)) (now w) d ->
  truthy_str before = false ->
  0 <= limit <= Z.of_nat (List.length d) ->
  exists older recent,
    d = (older ++ recent)%list /\
    getDiscussionMessages (Some limit) before w = Done (Returned recent) w /\
    (0 < limit -> Z.of_nat (List.length recent) = limit) /\
    (limit = 0 -> recent = d).
Proof.
  intros Hf Hc Hl.
  rewrite (@getDiscussionMessages_fresh P w d (Some limit) before Hf Hc)
    by (cbn; lia).
  cbn [default_limit].
  destruct (Z.eq_dec limit 0) as [-> | Hnz].
  - exists [], d. split; [reflexivity|]. split; [|split].
    + unfold slice_from. cbn [Z.opp Z.ltb Z.compare].
      replace (Z.min 0 (Z.of_nat (List.length d))) with 0 by lia.
      reflexivity.
    + intros H0. lia.
    + reflexivity.
  - rewrite slice_from_last by lia.
    exists (firstn (List.length d - Z.to_nat limit) d),
           (skipn (List.length d - Z.to_nat limit) d).
    split; [symmetry; apply firstn_skipn|]. split; [reflexivity|]. split.
    + intros _. rewrite length_skipn. lia.
    + intros H0. contradiction.
Qed.

(** X12.  [syncMessageCache] stores the sequence it is given, stamped with
    the clock; [getCachedMessages] then returns exactly that sequence, at any
    later time, fresh or not, and a cursor-less [getDiscussionMessages]
    answers from it without a gateway call while it is fresh and at least
    [limit] long.  On an empty cache [getCachedMessages] returns the empty
    list. *)
Theorem syncMessageCache_round_trip msgs w :
  let synced :=
    with_cache (set_messages (mkEntry (Some msgs) (now w)) (CACHE w)) w in
  syncMessageCache msgs w = Done (Returned tt) synced /\
  (forall t, getCachedMessages (at_clock t synced)
             = Done (Returned msgs) (at_clock t synced)) /\
  (forall t limit,
      t - now w < CACHE_DURATION ->
      default_limit limit <= Z.of_nat (List.length msgs) ->
      getDiscussionMessages limit None (at_clock t synced)
      = Done (Returned (slice_from (- default_limit limit) msgs))
             (at_clock t synced)) /\
  (data (messages (CACHE w)) = None ->
   getCachedMessages w = Done (Returned []) w).
Proof.
  cbv zeta. split; [reflexivity|]. split; [reflexivity|]. split.
  - intros t limit Ht Hl. apply getDiscussionMessages_fresh.
    + apply fresh_at_stamp. exact Ht.
    + reflexivity.
    + exact Hl.
  - intros Hn. unfold getCachedMessages. js_step. rewrite Hn. reflexivity.
Qed.

(** ** Profiles and sessions *)

(** X13.  [register] checks its input before anything else: when the email
    or the password is missing or empty, it throws
    ["Email et mot de passe requis"] at once, without any gateway request
    and without touching the cache. *)
Theorem register_requires_credentials userData jitter1 jitter2 w :
  truthy_str (RegisterData.email userData) = false \/
  truthy_str (RegisterData.password userData) = false ->
  register userData jitter1 jitter2 w
  = Done (Threw (Error "Email et mot de passe requis")) w.
Proof.
  unfold register, truthy_str.
  destruct (RegisterData.email userData) as [e|];
    destruct (RegisterData.password userData) as [p|];
    intros [H|H]; try discriminate H; try reflexivity;
    apply negb_false_iff in H; rewrite H; cbn [orb]; try reflexivity.
  rewrite orb_true_r. reflexivity.
Qed.

(** X14.  [getCurrentUser] first asks for the session.  A failure there, or
    a session without user, gives [null].  With a user, a fresh members
    entry that holds a member with the user's id answers at once: the cached
    member with the session's email, and no profile request.  Otherwise the
    profile row is requested; an error there gives [null], a row gives the
    mapped member with the session's email. *)
Theorem getCurrentUser_paths w :
  exists k,
    getCurrentUser w = Await AuthGetSession w k /\
    (forall r w', failed r -> k r w' = Done (Returned None) w') /\
    (forall w', k (Resolved (Some None) None) w' = Done (Returned None) w') /\
    (forall w', k (Resolved (Some (Some (Session.mk None))) None) w'
                = Done (Returned None) w') /\
    forall user w',
      let session := Resolved (Some (Some (Session.mk (Some user)))) None in
      (forall d m,
          fresh (members (CACHE w')) (now w') d ->
          find_member (AuthUser.id user) d = Some m ->
          k session w'
          = Done (Returned (Some (member_with_email m (AuthUser.email user))))
                 w') /\
      ((entry_valid (members (CACHE w')) (now w') = false \/
        forall d, data (members (CACHE w')) = Some d ->
                  find_member (AuthUser.id user) d = None) ->
       exists k',
         k session w' = Await (ProfilesSelectSingle (AuthUser.id user)) w' k' /\
         (forall r w'', failed r -> k' r w'' = Done (Returned None) w'') /\
         (forall row w'',
             k' (Resolved (Some row) None) w''
             = Done (Returned
                       (Some (mapProfileToMember P
                                (ProfileRow.with_email row
                                                       (AuthUser.email user)))))
                    w'')).
Proof.
  unfold getCurrentUser. js_step. eexists. split; [reflexivity|].
  split; [|split; [reflexivity|split; [reflexivity|]]].
  - intros r w' Hf.
    destruct r as [e | [s|] [e|]]; cbn in Hf; try contradiction; reflexivity.
  - intros user w'. split.
    + intros d m Hf Hm. rewrite (entry_valid_fresh Hf).
      destruct Hf as [Hd _]. rewrite Hd, Hm. reflexivity.
    + intros Hmiss.
      assert (Hnone :
                (if entry_valid (members (CACHE w')) (now w')
                 then match data (members (CACHE w')) with
                      | Some l => find_member (AuthUser.id user) l
                      | None => None
                      end
                 else None) = None).
      { destruct Hmiss as [Hv|Hn]; [rewrite Hv; reflexivity|].
        destruct (entry_valid _ _); [|reflexivity].
        destruct (data (members (CACHE w'))) as [l|]; [|reflexivity].
        apply Hn. reflexivity. }
      rewrite Hnone. eexists. split; [reflexivity|]. split.
      * intros r w'' Hf.
        destruct r as [e | row [e|]]; cbn in Hf; try contradiction;
          reflexivity.
      * reflexivity.
Qed.

Lemma if_truthy_empty : if_truthy (Some "") = None.
Proof. reflexivity. Qed.

(** X15.  [updateUser] sends only the fields that are truthy (an empty
    string is dropped like an absent one).  A gateway error is rethrown as
    [Error("Échec de la mise à jour du profil. " + message)] with the world
    untouched.  On success the members entry is reset before the profile is
    read again, so the re-read starts from the session with an empty members
    cache and cannot be answered from stale data. *)
Theorem updateUser_invalidates_before_reread userId updates w :
  exists k,
    updateUser userId updates w
    = Await (ProfilesUpdate userId
               (ProfileUpdate.mk
                  (if_truthy (UserUpdates.name updates))
                  (if_truthy (UserUpdates.businessName updates))
                  (if_truthy (UserUpdates.sector updates))
                  (if_truthy (UserUpdates.city updates))
                  (if_truthy (UserUpdates.address updates))
                  (if_truthy (UserUpdates.avatar updates))
                  (if_truthy (UserUpdates.role updates))
                  None None None None)) w k /\
    if_truthy (Some "") = None /\
    (forall d e w',
        k (Resolved d (Some e)) w'
        = Done (Threw (Error ("Échec de la mise à jour du profil. "
                                ++ message e)%string)) w') /\
    (forall e w', k (Rejected e) w' = Done (Threw e) w') /\
    (forall d w',
        exists k',
          k (Resolved d None) w'
          = Await AuthGetSession
                  (with_cache (set_members (mkEntry None 0) (CACHE w')) w') k').
Proof.
  unfold updateUser, getCurrentUser. js_step. eexists.
  split; [reflexivity|]. split; [reflexivity|]. split; [reflexivity|].
  split; [reflexivity|]. intros d w'. eexists. reflexivity.
Qed.

Lemma relocated_ids userId (f : Member.t -> Location.t) l :
  map Member.id
      (map (fun m => if (Member.id m =? userId)%string
                     then member_with_location m (f m) else m) l)
  = map Member.id l.
Proof.
  rewrite map_map. apply map_ext. intros m.
  destruct (Member.id m =? userId)%string; reflexivity.
Qed.

(** X16.  [updateUserLocation] rethrows a gateway error with its French
    prefix and leaves the cache alone.  On success, when members are cached,
    the cached sequence keeps its length, order, ids and timestamp; members
    with another id are untouched; every member with the given id gets the
    new coordinates, and a new city or address only when one is given and
    non-empty.  When no members are cached the entry stays [{ null, 0 }]. *)
Theorem updateUserLocation_patches userId coords details w :
  exists k upd,
    updateUserLocation userId coords details w
    = Await (ProfilesUpdate userId upd) w k /\
    ProfileUpdate.latitude upd = Some (fst coords) /\
    ProfileUpdate.longitude upd = Some (snd coords) /\
    (forall d e w',
        k (Resolved d (Some e)) w'
        = Done (Threw (Error ("Impossible de mettre à jour la localisation. "
                                ++ message e)%string)) w') /\
    (forall d w',
        exists after,
          k (Resolved d None) w' = Done (Returned tt) after /\
          localStorage after = localStorage w' /\
          (data (members (CACHE w')) = None ->
           members (CACHE after) = mkEntry None 0) /\
          (forall l,
              data (members (CACHE w')) = Some l ->
              exists l',
                members (CACHE after)
                = mkEntry (Some l') (timestamp (members (CACHE w'))) /\
                map Member.id l' = map Member.id l /\
                (forall m, In m l -> Member.id m <> userId -> In m l') /\
                (forall m', In m' l' -> Member.id m' = userId ->
                            Location.lat (Member.location m') = fst coords /\
                            Location.lng (Member.location m') = snd coords) /\
                (forall m, In m l -> Member.id m = userId ->
                           In (member_with_location m
                                 (patch_location coords details
                                                 (Member.location m))) l'))) /\
    (forall loc,
        (details = None \/
         exists dt, details = Some dt /\
                    truthy_str (LocationDetails.city dt) = false) ->
        Location.city (patch_location coords details loc) = Location.city loc) /\
    (forall loc,
        (details = None \/
         exists dt, details = Some dt /\
                    truthy_str (LocationDetails.address dt) = false) ->
        Location.address (patch_location coords details loc)
        = Location.address loc).
Proof.
  unfold updateUserLocation. js_step. eexists. eexists.
  split; [reflexivity|]. split; [reflexivity|]. split; [reflexivity|].
  split; [reflexivity|]. split; [|split].
  - intros d w'. destruct (data (members (CACHE w'))) as [l|] eqn:Hd.
    + eexists. split; [reflexivity|]. split; [reflexivity|].
      split; [intros H; discriminate H|].
      intros l0 Hl. injection Hl as <-. eexists. split; [reflexivity|].
      split; [apply relocated_ids|]. split; [|split].
      * intros m Hin Hne. apply in_map_iff. exists m. split; [|exact Hin].
        apply String.eqb_neq in Hne. rewrite Hne. reflexivity.
      * intros m' Hin Hid. apply in_map_iff in Hin.
        destruct Hin as [m [Hm Hin]].
        destruct (Member.id m =? userId)%string eqn:E.
        -- subst m'. split; reflexivity.
        -- subst m'. apply String.eqb_neq in E. contradiction.
      * intros m Hin Hid. apply in_map_iff. exists m. split; [|exact Hin].
        rewrite Hid, String.eqb_refl. reflexivity.
    + eexists. split; [reflexivity|]. split; [reflexivity|].
      split; [reflexivity|]. intros l Hl. discriminate Hl.
  - intros loc [-> | [dt [-> Hc]]]; [reflexivity|].
    unfold patch_location, if_truthy. rewrite Hc. reflexivity.
  - intros loc [-> | [dt [-> Hc]]]; [reflexivity|].
    unfold patch_location, if_truthy. rewrite Hc. reflexivity.
Qed.

(** ** Patching the feed *)

Lemma replace_post_ids post d :
  map Post.id (replace_post post d) = map Post.id d.
Proof.
  unfold replace_post. rewrite map_map. apply map_ext_in. intros p _.
  destruct (String.eqb_spec (Post.id p) (Post.id post)) as [E|E];
    [symmetry; exact E | reflexivity].
Qed.

Lemma replace_post_absent post d :
  ~ In (Post.id post) (map Post.id d) -> replace_post post d = d.
Proof.
  intros H. unfold replace_post. rewrite <- (map_id d) at 2.
  apply map_ext_in. intros p Hin.
  destruct (String.eqb_spec (Post.id p) (Post.id post)) as [E|E];
    [|reflexivity].
  exfalso. apply H. rewrite <- E. apply in_map. exact Hin.
Qed.

(** X17.  The optimistic patch of [updatePost] never reshapes the feed: the
    cached sequence keeps its length and the order of its ids, and its
    timestamp.  It changes nothing at all when no cached post has the id, or
    when no posts are cached (the entry stays [null]; the gateway update is
    issued all the same). *)
Theorem updatePost_keeps_order post w :
  timestamp (posts (CACHE (patched_world post w)))
  = timestamp (posts (CACHE w)) /\
  (forall d,
      data (posts (CACHE w)) = Some d ->
      exists d',
        data (posts (CACHE (patched_world post w))) = Some d' /\
        map Post.id d' = map Post.id d /\
        List.length d' = List.length d /\
        (~ In (Post.id post) (map Post.id d) -> d' = d)) /\
  (data (posts (CACHE w)) = None ->
   posts (CACHE (patched_world post w)) = posts (CACHE w) /\
   exists k,
     updatePost post w
     = Await (PostsUpdate (Post.id post) (Post.likes post) (Post.likedBy post))
             (patched_world post w) k).
Proof.
  unfold patched_world, patch_entry. cbn [CACHE with_cache posts set_posts].
  split; [destruct (data (posts (CACHE w))); reflexivity|]. split.
  - intros d Hd. rewrite Hd. eexists. split; [reflexivity|].
    split; [apply replace_post_ids|]. split.
    + unfold replace_post. apply length_map.
    + apply replace_post_absent.
  - intros Hn. rewrite Hn. split; [reflexivity|].
    unfold updatePost. js_step. unfold patch_entry. rewrite Hn.
    eexists. reflexivity.
Qed.

(** ** Training progress *)

Lemma existsb_eqb_In x l :
  existsb (String.eqb x) l = true <-> In x l.
Proof.
  rewrite existsb_exists. split.
  - intros [y [Hin Heq]]. apply String.eqb_eq in Heq. subst y. exact Hin.
  - intros Hin. exists x. split; [exact Hin | apply String.eqb_refl].
Qed.

(** X18.  [markTrainingCompleted] reads the member's completed list first.
    With no profile row, or when the training is already in the list, it
    returns without any update and without touching the cache.  Otherwise it
    sends the list with the training appended and the new percentage (out of
    ten when the trainings entry is not valid), and then resets the members
    entry whatever the gateway answers to that update; only a rejected
    promise leaves the cache as it was.  It never throws. *)
Theorem markTrainingCompleted_paths userId trainingId w :
  exists k,
    markTrainingCompleted userId trainingId w
    = Await (ProfilesSelectCompleted userId) w k /\
    (forall e w', k (Rejected e) w' = Done (Returned tt) w') /\
    (forall e w', k (Resolved None e) w' = Done (Returned tt) w') /\
    (forall completed e w',
        In trainingId (list_or completed) ->
        k (Resolved (Some completed) e) w' = Done (Returned tt) w') /\
    (forall completed e w',
        ~ In trainingId (list_or completed) ->
        exists k' progress,
          k (Resolved (Some completed) e) w'
          = Await (ProfilesUpdate userId
                     (ProfileUpdate.mk None None None None None None None None
                        None (Some (list_or completed ++ [trainingId]))
                        (Some progress))) w' k' /\
          (entry_valid (trainings (CACHE w')) (now w') = false ->
           progress
           = progress_percent (Z.of_nat (List.length (list_or completed)) + 1)
                              10) /\
          (forall d e' w'',
              k' (Resolved d e') w''
              = Done (Returned tt)
                     (with_cache (set_members (mkEntry None 0) (CACHE w''))
                                 w'')) /\
          (forall x w'', k' (Rejected x) w'' = Done (Returned tt) w'')).
Proof.
  unfold markTrainingCompleted. js_step. eexists. split; [reflexivity|].
  split; [reflexivity|]. split; [reflexivity|]. split.
  - intros completed e w' Hin. apply existsb_eqb_In in Hin.
    rewrite Hin. reflexivity.
  - intros completed e w' Hn.
    assert (Hf : existsb (String.eqb trainingId) (list_or completed) = false).
    { destruct (existsb _ _) eqn:E; [|reflexivity].
      apply existsb_eqb_In in E. contradiction. }
    rewrite Hf. eexists. eexists. split; [reflexivity|]. split.
    + intros Hv. rewrite Hv. rewrite length_app. cbn [List.length].
      f_equal. lia.
    + split; reflexivity.
Qed.

(** ** The lists kept in localStorage *)

Lemma toggle_twice id (l : list StrategicGoal.t) :
  let toggle := fun g =>
    if (StrategicGoal.id g =? id)%string
    then StrategicGoal.mk (StrategicGoal.id g) (StrategicGoal.text g)
                          (negb (StrategicGoal.isCompleted g))
    else g in
  map toggle (map toggle l) = l.
Proof.
  cbv zeta. rewrite map_map. rewrite <- (map_id l) at 2.
  apply map_ext. intros [gid text done]. cbn.
  destruct (gid =? id)%string eqn:E; cbn; [|rewrite E; reflexivity].
  rewrite E, negb_involutive. reflexivity.
Qed.

(** X19.  [toggleStrategicGoal] flips the completion flag of the goals with
    the given id and of no other, keeps every id and text and the order,
    stores what it returns, and leaves the cache alone; toggling the same id
    a second time restores the stored list exactly. *)
Theorem toggleStrategicGoal_involutive id w :
  exists once w1,
    toggleStrategicGoal id w = Done (Returned once) w1 /\
    goals w1 = once /\
    CACHE w1 = CACHE w /\
    map StrategicGoal.id once = map StrategicGoal.id (goals w) /\
    map StrategicGoal.text once = map StrategicGoal.text (goals w) /\
    (forall g, In g (goals w) -> StrategicGoal.id g <> id -> In g once) /\
    (forall g, In g (goals w) -> StrategicGoal.id g = id ->
               In (StrategicGoal.mk (StrategicGoal.id g) (StrategicGoal.text g)
                                    (negb (StrategicGoal.isCompleted g)))
                  once) /\
    exists w2,
      toggleStrategicGoal id w1 = Done (Returned (goals w)) w2 /\
      goals w2 = goals w.
Proof.
  unfold toggleStrategicGoal, goals. js_step. eexists. eexists.
  split; [reflexivity|]. split; [reflexivity|]. split; [reflexivity|].
  split; [|split; [|split; [|split]]].
  - rewrite map_map. apply map_ext. intros g.
    destruct (StrategicGoal.id g =? id)%string; reflexivity.
  - rewrite map_map. apply map_ext. intros g.
    destruct (StrategicGoal.id g =? id)%string; reflexivity.
  - intros g Hin Hne. apply in_map_iff. exists g. split; [|exact Hin].
    apply String.eqb_neq in Hne. rewrite Hne. reflexivity.
  - intros g Hin Hid. apply in_map_iff. exists g. split; [|exact Hin].
    rewrite Hid, String.eqb_refl. reflexivity.
  - cbn [localStorage with_store pr_goals set_goals list_or].
    rewrite (toggle_twice id). eexists. split; reflexivity.
Qed.

Lemma filter_other_ids id (l : list StrategicGoal.t) :
  ~ In id (map StrategicGoal.id l) ->
  filter (fun x => negb (StrategicGoal.id x =? id)%string) l = l.
Proof.
  induction l as [|x l IH]; intros Habs; [reflexivity|].
  cbn [filter].
  destruct (String.eqb_spec (StrategicGoal.id x) id) as [E|E].
  - exfalso. apply Habs. left. exact E.
  - cbn [negb]. f_equal. apply IH. intros Hin. apply Habs. right. exact Hin.
Qed.

(** X20.  [addStrategicGoal] appends an open goal whose id is the clock
    reading as a decimal string, stores the list and returns it, and
    [getStrategicGoals] reads it back.  Two goals added at the same clock
    reading therefore share an id.  [deleteStrategicGoal] removes every goal
    with the given id, so it removes both, and keeps the others in their
    order: what it returns and stores is the stored list filtered, so
    removing the one goal with an id from [before ++ x :: after] gives
    [before ++ after]; on an id that no goal has, the list comes back
    unchanged. *)
Theorem strategic_goals_lifecycle text w :
  let g := StrategicGoal.mk (Z_to_string (now w)) text false in
  exists w1,
    addStrategicGoal text w = Done (Returned (goals w ++ [g])) w1 /\
    now w1 = now w /\
    getStrategicGoals w1 = Done (Returned (goals w ++ [g])) w1 /\
    (forall text2,
        exists g2 w2,
          addStrategicGoal text2 w1 = Done (Returned (goals w ++ [g; g2])) w2 /\
          StrategicGoal.id g2 = StrategicGoal.id g /\
          StrategicGoal.text g2 = text2) /\
    (forall id w0,
        exists kept w3,
          deleteStrategicGoal id w0 = Done (Returned kept) w3 /\
          goals w3 = kept /\
          kept = filter (fun x => negb (StrategicGoal.id x =? id)%string)
                        (goals w0) /\
          (forall before x after,
              goals w0 = (before ++ x :: after)%list ->
              StrategicGoal.id x = id ->
              ~ In id (map StrategicGoal.id before) ->
              ~ In id (map StrategicGoal.id after) ->
              kept = (before ++ after)%list) /\
          (forall x, In x kept <->
                     In x (goals w0) /\ StrategicGoal.id x <> id) /\
          (~ In id (map StrategicGoal.id (goals w0)) -> kept = goals w0)).
Proof.
  unfold addStrategicGoal, getStrategicGoals, deleteStrategicGoal, goals.
  js_step. eexists. split; [reflexivity|]. split; [reflexivity|].
  split; [reflexivity|]. split.
  - intros text2. eexists. eexists.
    cbn [localStorage with_store pr_goals set_goals list_or now].
    rewrite <- app_assoc. cbn [app].
    split; [reflexivity|]. split; reflexivity.
  - intros id w0. eexists. eexists. split; [reflexivity|].
    split; [reflexivity|]. split; [reflexivity|]. split; [|split].
    + intros before x after Hg Hx Hb Ha. rewrite Hg, filter_app.
      cbn [filter]. rewrite Hx, String.eqb_refl. cbn [negb].
      rewrite !filter_other_ids by assumption. reflexivity.
    + intros x. rewrite filter_In, negb_true_iff, String.eqb_neq.
      reflexivity.
    + apply filter_other_ids.
Qed.

(** X21.  Notifications and victories are kept newest first:
    [addNotification] and [addVictory] put the new item in front of the
    stored list, and the getters read it back.  [updateVictory] keeps the
    length of the list, leaves every victory with another id as it is, and
    changes nothing when no victory has the id; [deleteVictory] removes every
    victory with the given id and no other. *)
Theorem notifications_and_victories w :
  (forall n,
      exists w1,
        addNotification n w = Done (Returned tt) w1 /\
        CACHE w1 = CACHE w /\
        getNotifications w1
        = Done (Returned (n :: list_or (pr_notifs (localStorage w)))) w1) /\
  (forall v,
      exists w1,
        addVictory v w
        = Done (Returned (v :: list_or (pr_victories (localStorage w)))) w1 /\
        CACHE w1 = CACHE w /\
        getVictories w1
        = Done (Returned (v :: list_or (pr_victories (localStorage w)))) w1) /\
  (forall id d,
      exists updated w1,
        updateVictory id d w = Done (Returned updated) w1 /\
        List.length updated
        = List.length (list_or (pr_victories (localStorage w))) /\
        (forall v, In v (list_or (pr_victories (localStorage w))) ->
                   victory_id P v <> id -> In v updated) /\
        (~ In id (map (victory_id P)
                      (list_or (pr_victories (localStorage w)))) ->
         updated = list_or (pr_victories (localStorage w)))) /\
  (forall id,
      exists kept w1,
        deleteVictory id w = Done (Returned kept) w1 /\
        getVictories w1 = Done (Returned kept) w1 /\
        forall v, In v kept <->
                  In v (list_or (pr_victories (localStorage w))) /\
                  victory_id P v <> id).
Proof.
  unfold addNotification, getNotifications, addVictory, getVictories,
    updateVictory, deleteVictory.
  js_step. split; [|split; [|split]].
  - intros n. eexists. split; [reflexivity|]. split; reflexivity.
  - intros v. eexists. split; [reflexivity|]. split; reflexivity.
  - intros id d. eexists. eexists. split; [reflexivity|].
    split; [apply length_map|]. split.
    + intros v Hin Hne. apply in_map_iff. exists v. split; [|exact Hin].
      apply String.eqb_neq in Hne. rewrite Hne. reflexivity.
    + intros Habs.
      rewrite <- (map_id (list_or (pr_victories (localStorage w)))) at 2.
      apply map_ext_in. intros v Hin.
      destruct (String.eqb_spec (victory_id P v) id) as [E|E]; [|reflexivity].
      exfalso. apply Habs. rewrite <- E. apply in_map. exact Hin.
  - intros id. eexists. eexists. split; [reflexivity|].
    split; [reflexivity|].
    intros v. rewrite filter_In, negb_true_iff, String.eqb_neq. reflexivity.
Qed.

(** ** The fallback queue is never drained *)

Lemma is_prefix_refl {A} (l : list A) : is_prefix l l.
Proof. exists []. symmetry. apply app_nil_r. Qed.

Lemma is_prefix_trans {A} (a b c : list A) :
  is_prefix a b -> is_prefix b c -> is_prefix a c.
Proof.
  intros [r1 ->] [r2 ->]. exists (r1 ++ r2)%list. symmetry. apply app_assoc.
Qed.

Lemma is_prefix_app {A} (a b c : list A) :
  is_prefix a b -> is_prefix a (b ++ c).
Proof. intros [r ->]. exists (r ++ c)%list. symmetry. apply app_assoc. Qed.

Lemma run_preserves {A} (I : World P -> Prop) (env : Env P) (t : Async P A) :
  preserves I t ->
  (forall w0, I w0 -> I (meanwhile env w0)) ->
  I (snd (run env t)).
Proof.
  intros Ht Henv. induction t as [o w0 | R req w0 k IH]; cbn in *.
  - exact Ht.
  - destruct Ht as [H0 Hk]. apply IH. apply Hk. apply Henv. exact H0.
Qed.

Ltac queue_leaf :=
  unfold queue_extends, queue in *;
  cbn [localStorage with_store with_cache pr_local_comments
       set_local_comments set_notifs set_goals set_victories] in *;
  first [ assumption | apply is_prefix_app; assumption ].

Ltac queue_cases :=
  repeat first
    [ progress js_step
    | progress cbn [preserves]
    | match goal with
      | |- forall _, _ => intro
      | |- _ /\ _ => split
      | |- queue_extends _ _ => queue_leaf
      | |- context [match ?x with _ => _ end] =>
        lazymatch type of x with
        | Async _ _ => fail
        | _ => destruct x
        end
      end ].

Lemma perform_keeps_queue (op : Operation P) q w :
  queue_extends q w -> preserves (queue_extends q) (perform op w).
Proof.
  intros Hq.
  destruct op; cbn [perform]; unfold void.
  - unfold getCurrentUser. queue_cases.
  - unfold login, getCurrentUser. queue_cases.
  - unfold logout. queue_cases.
  - unfold register, getCurrentUser. queue_cases.
  - unfold updateUserLocation. queue_cases.
  - unfold updateUser, getCurrentUser. queue_cases.
  - unfold getAllMembers. queue_cases.
  - unfold getPosts. queue_cases.
  - unfold addPost. queue_cases.
  - unfold updatePost. queue_cases.
  - unfold addComment. queue_cases.
  - unfold getCommentsForPost. queue_cases.
  - unfold getTrainings. queue_cases.
  - unfold addTraining. queue_cases.
  - unfold markTrainingCompleted. queue_cases.
  - unfold getCachedMessages. queue_cases.
  - unfold syncMessageCache. queue_cases.
  - unfold getDiscussionMessages. queue_cases.
  - unfold addDiscussionMessage. queue_cases.
  - unfold deleteDiscussionMessage. queue_cases.
  - unfold getNotifications. queue_cases.
  - unfold addNotification. queue_cases.
  - unfold getStrategicGoals. queue_cases.
  - unfold addStrategicGoal. queue_cases.
  - unfold toggleStrategicGoal. queue_cases.
  - unfold deleteStrategicGoal. queue_cases.
  - unfold getVictories. queue_cases.
  - unfold addVictory. queue_cases.
  - unfold updateVictory. queue_cases.
  - unfold deleteVictory. queue_cases.
Qed.

(** X22.  No operation of the service removes, rewrites or reorders a queued
    comment: over any sequence of operations, whatever the gateway answers,
    the queue ['pr_local_comments'] only grows at its end; the queue at the
    start is an initial segment of the queue at the end.  In particular a
    comment queued after a failed insert stays queued when a later insert or
    read succeeds.  (The environment is assumed not to shrink the queue while
    a call is suspended.) *)
Theorem queue_only_grows (env : Env P) (ops : list (Operation P)) w :
  (forall q w0, queue_extends q w0 -> queue_extends q (meanwhile env w0)) ->
  is_prefix (queue w) (queue (run_all env ops w)).
Proof.
  intros Henv. revert w. induction ops as [|op rest IH]; intros w.
  - apply is_prefix_refl.
  - cbn [run_all]. eapply is_prefix_trans; [|apply IH].
    apply (@run_preserves unit (queue_extends (queue w)) env).
    + apply perform_keeps_queue. apply is_prefix_refl.
    + apply Henv.
Qed.

(** ** What an operation leaves alone *)

Ltac frame_cases :=
  repeat first
    [ progress js_step
    | progress cbn [preserves]
    | match goal with
      | |- forall _, _ => intro
      | |- _ /\ _ => split
      | |- CACHE _ = _ =>
        cbn [CACHE with_store with_cache]; assumption
      | |- localStorage _ = _ =>
        cbn [localStorage with_store with_cache]; assumption
      | |- context [match ?x with _ => _ end] =>
        lazymatch type of x with
        | Async _ _ => fail
        | _ => destruct x
        end
      end ].

Ltac unfold_operations :=
  unfold void, login, logout, register, updateUserLocation, updateUser,
    getAllMembers, getPosts, addPost, updatePost, addComment,
    getCommentsForPost, getTrainings, addTraining, markTrainingCompleted,
    getCachedMessages, syncMessageCache, getDiscussionMessages,
    addDiscussionMessage, deleteDiscussionMessage, getNotifications,
    addNotification, getStrategicGoals, addStrategicGoal,
    toggleStrategicGoal, deleteStrategicGoal, getVictories, addVictory,
    updateVictory, deleteVictory, getCurrentUser.

(** X23.  Which operations leave which store alone.  [getCurrentUser],
    [login], [getCommentsForPost], [getCachedMessages] and the ten
    [localStorage] helpers never assign to the cache: every world they leave
    has the cache they were started or resumed with.  Every operation other
    than [addComment] and the seven list-changing helpers never writes to
    [localStorage]. *)
Theorem operations_frame (op : Operation P) w :
  (touches_cache op = false ->
   forall c, CACHE w = c -> preserves (fun w0 => CACHE w0 = c) (perform op w)) /\
  (writes_store op = false ->
   forall st, localStorage w = st ->
              preserves (fun w0 => localStorage w0 = st) (perform op w)).
Proof.
  split; intros Hop x Hx; destruct op; try discriminate Hop;
    cbn [perform]; unfold_operations; frame_cases.
Qed.

(** ** Signing in and signing up *)

(** X24.  [login] lets a sign-in error through to its caller unchanged,
    returns [null] without a further request when the sign-in yields no
    user, and otherwise continues exactly as [getCurrentUser] does from the
    world of that moment. *)
Theorem login_paths email password w :
  exists k,
    login email password w
    = Await (AuthSignInWithPassword email password) w k /\
    (forall d e w', k (Resolved d (Some e)) w' = Done (Threw e) w') /\
    (forall e w', k (Rejected e) w' = Done (Threw e) w') /\
    (forall w', k (Resolved (Some None) None) w' = Done (Returned None) w') /\
    (forall user w',
        k (Resolved (Some (Some user)) None) w' = getCurrentUser w').
Proof.
  unfold login. js_step. eexists. split; [reflexivity|].
  split; [reflexivity|]. split; [reflexivity|]. split; [reflexivity|].
  intros user w'. unfold getCurrentUser. js_step. reflexivity.
Qed.

(** X25.  [register] with an email and a password signs up first.  A
    sign-up error is thrown to the caller; a sign-up without user throws
    ["Erreur création utilisateur"].  With a user, the profile update
    carries the role ["MEMBER"] when none is given, and once it has
    resolved, whatever the response, the members entry is reset and the new
    profile is read through the session. *)
Theorem register_paths userData jitter1 jitter2 w email password :
  RegisterData.email userData = Some email ->
  RegisterData.password userData = Some password ->
  email <> "" -> password <> "" ->
  exists k,
    register userData jitter1 jitter2 w
    = Await (AuthSignUp email password (RegisterData.name userData)
                        (RegisterData.businessName userData)) w k /\
    (forall d e w', k (Resolved d (Some e)) w' = Done (Threw e) w') /\
    (forall w', k (Resolved (Some None) None) w'
                = Done (Threw (Error "Erreur création utilisateur")) w') /\
    (forall user w',
        exists k' upd,
          k (Resolved (Some (Some user)) None) w'
          = Await (ProfilesUpdate (AuthUser.id user) upd) w' k' /\
          ProfileUpdate.role upd
          = Some (str_or (RegisterData.role userData) "MEMBER") /\
          (forall e w'', k' (Rejected e) w'' = Done (Threw e) w'') /\
          (forall d e w'',
              exists k'',
                k' (Resolved d e) w''
                = Await AuthGetSession
                        (with_cache (set_members (mkEntry None 0) (CACHE w''))
                                    w'') k'' /\
                (forall r w3, failed r ->
                   k'' r w3
                   = Done (Threw (Error
                        "Erreur récupération profil après création")) w3))).
Proof.
  intros He Hp Hne Hnp. unfold register, getCurrentUser. rewrite He, Hp.
  apply String.eqb_neq in Hne. apply String.eqb_neq in Hnp.
  rewrite Hne, Hnp. js_step. eexists. split; [reflexivity|].
  split; [reflexivity|]. split; [reflexivity|].
  intros user w'. eexists. eexists. split; [reflexivity|].
  split; [reflexivity|]. split; [reflexivity|].
  intros d e w''. eexists. split; [reflexivity|].
  intros r w3 Hf.
  destruct r as [x | [s|] [x|]]; cbn in Hf; try contradiction; reflexivity.
Qed.

(** ** Sorting comments *)

Lemma js_sort_sorted_id (l : list Comment.t) :
  StronglySorted (timestamp_le P) l -> js_sort (compare_timestamp P) l = l.
Proof.
  induction 1 as [|x l Hs IH Hall]; [reflexivity|].
  cbn [js_sort]. rewrite IH. destruct l as [|y l']; [reflexivity|].
  cbn [sort_insert]. inversion Hall as [|? ? Hxy _]; subst.
  unfold timestamp_le in Hxy. unfold compare_timestamp.
  apply Z.leb_le in Hxy. rewrite Hxy. reflexivity.
Qed.

(** X26.  [getCommentsForPost] sorts on the displayed hour-and-minute
    string, also when nothing is queued.  With an empty queue it returns the
    gateway's comments in the gateway's order exactly when their [timestamp]
    strings are already non-decreasing under [localeCompare]; in that case
    the sort changes nothing. *)
Theorem sorted_comments_keep_gateway_order postId w rows w' :
  local_comments_for postId (localStorage w') = [] ->
  StronglySorted (timestamp_le P) (map (mapDbComment P) rows) ->
  exists k,
    getCommentsForPost postId w = Await (CommentsSelect postId) w k /\
    k (Resolved (Some rows) None) w'
    = Done (Returned (map (mapDbComment P) rows)) w'.
Proof.
  intros Hq Hs. unfold getCommentsForPost. js_step. eexists.
  split; [reflexivity|].
  js_step. rewrite Hq, app_nil_r. cbn [list_or].
  rewrite (js_sort_sorted_id Hs). reflexivity.
Qed.

End MoreProperties.

(** * The further properties, at concrete inputs *)

Lemma initial_load_replaces_cache_witness :
  truthy_str None = false /\
  messages (CACHE (snd (run (serving_messages three_rows)
                            (getDiscussionMessages None None chat_world))))
  = mkEntry (Some [msg "01"; msg "02"; msg "03"]) 2000.
Proof.
  split; [reflexivity|].
  destruct (initial_load_replaces_cache None None chat_world eq_refl)
    as [[d Hd] | [k [Hk [_ Hrows]]]].
  - apply (f_equal (gateway_calls offline)) in Hd.
    vm_compute in Hd. discriminate Hd.
  - rewrite Hk. cbn [run respond serving_messages].
    destruct (Hrows three_rows
                    (meanwhile (serving_messages three_rows) chat_world))
      as [H1 _].
    rewrite H1. reflexivity.
Defined.

Lemma cached_page_is_the_tail_witness :
  fresh (messages (CACHE chat_world)) (now chat_world) chat_cached /\
  exists older recent,
    chat_cached = (older ++ recent)%list /\
    getDiscussionMessages (Some 5) None chat_world
    = Done (Returned recent) chat_world /\
    Z.of_nat (List.length recent) = 5.
Proof.
  assert (Hm : fresh (messages (CACHE chat_world)) (now chat_world) chat_cached)
    by (split; [reflexivity | vm_compute; reflexivity]).
  split; [exact Hm|].
  destruct (@cached_page_is_the_tail demo 5 None chat_world chat_cached Hm
                                     eq_refl)
    as [older [recent [H1 [H2 [H3 _]]]]].
  - vm_compute. split; discriminate.
  - exists older, recent. split; [exact H1|]. split; [exact H2|].
    apply H3. reflexivity.
Defined.

Lemma register_requires_credentials_witness :
  truthy_str (RegisterData.email incomplete_registration) = false /\
  register incomplete_registration 0 0 (boot 0)
  = Done (Threw (Error "Email et mot de passe requis")) (boot 0).
Proof.
  split; [reflexivity|].
  apply register_requires_credentials. left. reflexivity.
Defined.

Lemma register_paths_witness :
  RegisterData.email complete_registration = Some "awa@example.org" /\
  RegisterData.password complete_registration = Some "secret" /\
  exists k,
    register complete_registration 0 0 (boot 0)
    = Await (AuthSignUp "awa@example.org" "secret" (Some "Awa") None)
            (boot 0) k.
Proof.
  split; [reflexivity|]. split; [reflexivity|].
  destruct (@register_paths demo complete_registration 0 0 (boot 0)
                            "awa@example.org" "secret" eq_refl eq_refl)
    as [k [Hk _]]; [discriminate | discriminate |].
  exists k. exact Hk.
Defined.

Lemma queue_only_grows_witness :
  (forall q w0, queue_extends q w0 -> queue_extends q (meanwhile offline w0)) /\
  is_prefix (queue comments_world)
            (queue (run_all offline comment_session comments_world)) /\
  List.length (queue (run_all offline comment_session comments_world)) = 4%nat.
Proof.
  assert (H : forall q w0, queue_extends q w0 ->
                           queue_extends q (meanwhile offline w0))
    by (intros q w0 Hq; exact Hq).
  split; [exact H|]. split.
  - apply queue_only_grows. exact H.
  - vm_compute. reflexivity.
Defined.

Lemma sorted_comments_keep_gateway_order_witness :
  local_comments_for "p1" (localStorage (boot 0)) = [] /\
  StronglySorted (timestamp_le demo)
                 (map (mapDbComment demo) gateway_comments) /\
  fst (run (serving_comments gateway_comments)
           (getCommentsForPost "p1" (boot 0)))
  = Returned [Comment.mk "c1" "Awa" "comment c1" "08:30";
              Comment.mk "c2" "Awa" "comment c2" "10:15"].
Proof.
  assert (Hs : StronglySorted (timestamp_le demo)
                              (map (mapDbComment demo) gateway_comments)).
  { repeat constructor. vm_compute. discriminate. }
  split; [reflexivity|]. split; [exact Hs|].
  destruct (@sorted_comments_keep_gateway_order demo "p1" (boot 0)
              gateway_comments
              (meanwhile (serving_comments gateway_comments) (boot 0))
              eq_refl Hs) as [k [Hk H1]].
  rewrite Hk. cbn [run respond serving_comments]. rewrite H1. reflexivity.
Defined.
